(** * kapp: permission validation of (Cluster)RoleBinding resources

    A shallow embedding of [BindingValidator.Validate] (package
    [permissions], file [src/pkg/kapp/cmd/tools/cmd.go]) and the proofs of
    its specification.

    The validator talks to three collaborators (the REST mapper, the
    SelfSubjectAccessReview client behind [ValidatePermissions], and the RBAC
    client behind [RulesForBinding]).  Every call to one of them is recorded
    in a trace, and the answer of a collaborator may depend on everything
    that happened before the call, so that statements such as "checked
    exactly once" or "never called" are statements about the trace. *)

From Stdlib Require Import String List Bool Arith Lia.
Import ListNotations.
Local Open Scope string_scope.
Local Open Scope list_scope.
Set Warnings "-register-all".

(** ** Data model: the Kubernetes types the validator handles *)

Module schema.

Record GroupKind := { gk_Group : string; gk_Kind : string }.

Record GroupVersion := { gv_Group : string; gv_Version : string }.

Record GroupVersionKind :=
  { gvk_Group : string; gvk_Version : string; gvk_Kind : string }.

Record GroupVersionResource :=
  { Group : string; Version : string; Resource : string }.

(** [gv.WithKind(kind)] *)
Definition WithKind (gv : GroupVersion) (kind : string) : GroupVersionKind :=
  {| gvk_Group := gv_Group gv; gvk_Version := gv_Version gv; gvk_Kind := kind |}.

End schema.

Module meta.

(** The part of [meta.RESTMapping] the validator reads. *)
Record RESTMapping := { Resource : schema.GroupVersionResource }.

End meta.

Module authv1.

(** One fully specified permission check.  A field that a composite
    literal leaves out has Go's zero value, the empty string. *)
Record ResourceAttributes :=
  { Group : string;
    Version : string;
    Resource : string;
    Namespace : string;
    Name : string;
    Verb : string }.

End authv1.

Module rbacv1.

(** Modelled from the spec: the declaration of [rbacv1.PolicyRule] is not
    in the source tree; the four fields are the ones section 3 lists and
    the ones [Validate] reads. *)
Record PolicyRule :=
  { Verbs : list string;
    APIGroups : list string;
    Resources : list string;
    ResourceNames : list string }.

End rbacv1.

Module ctlres.

(** The reference of a binding to the role it grants. *)
Record RoleRef := { ref_Kind : string; ref_Name : string }.

(** [ctlres.Resource] is an interface; the record holds what its methods
    [Kind], [GroupVersion], [Namespace] and [Name] return, and the role
    reference the rule resolver follows. *)
Record Resource :=
  { Kind : string;
    APIGroup : string;
    APIVersion : string;
    Namespace : string;
    Name : string;
    roleRef : RoleRef }.

Definition GroupVersion (res : Resource) : schema.GroupVersion :=
  {| schema.gv_Group := APIGroup res; schema.gv_Version := APIVersion res |}.

Definition GroupKind (res : Resource) : schema.GroupKind :=
  {| schema.gk_Group := APIGroup res; schema.gk_Kind := Kind res |}.

End ctlres.

(** ** Errors *)

(** An argument of a [fmt.Errorf] call, kept with the verb that formats it. *)
Inductive FmtArg : Type :=
| ArgQ (s : string)                       (* %q of a string *)
| ArgS (gvk : schema.GroupVersionKind).   (* %s of gvk.String() *)

(** A non-nil Go [error]; Go's [error] interface value is [option error],
    [None] being [nil].

    Modelled from the spec: the error values of the three collaborators
    ([RESTMapping], [ValidatePermissions], [RulesForBinding], none of them in
    the source tree) follow the taxonomy of section 7.  The last three
    constructors are the errors [Validate] builds itself. *)
Inductive error : Type :=
| AddressingError (msg : string)
| TransportError (msg : string)
| NotFoundError (msg : string)
| PermissionDeniedError (attrs : authv1.ResourceAttributes)
| wrapError (format : string) (err : error)         (* fmt.Errorf with %w *)
| fmtError (format : string) (args : list FmtArg)   (* fmt.Errorf *)
| joinError (errs : list error).                    (* errors.Join *)

(** [errors.Join]: nil values are discarded, and the result is nil when
    nothing is left. *)
Definition errors_Join (errs : list (option error)) : option error :=
  match flat_map (fun e => match e with Some e' => [e'] | None => [] end) errs with
  | [] => None
  | es => Some (joinError es)
  end.

(** A definite "denied" answer of the authorization service. *)
Definition is_denial (e : error) : bool :=
  match e with PermissionDeniedError _ => true | _ => false end.

(** A remote call that did not complete. *)
Definition is_transport_failure (e : error) : bool :=
  match e with TransportError _ => true | _ => false end.

Definition escalation_format : string :=
  "potential privilege escalation, not permitted to %q %s".

(** The aggregate [Validate] returns when grants are missing: the join of
    the escalation message with the failed checks. *)
Definition is_PrivilegeEscalationError (e : error) : bool :=
  match e with
  | joinError (fmtError f _ :: _) => String.eqb f escalation_format
  | _ => false
  end.

(** ** Calls to the collaborators, and the monad that records them *)

Inductive Event : Type :=
| EvRESTMapping (gk : schema.GroupKind) (version : string)
| EvValidatePermissions (attrs : authv1.ResourceAttributes)
| EvRulesForBinding (res : ctlres.Resource).

(** Calls in the order they were made, oldest first. *)
Definition Trace := list Event.

Definition is_check (ev : Event) : bool :=
  match ev with EvValidatePermissions _ => true | _ => false end.

Definition is_role_resolution (ev : Event) : bool :=
  match ev with EvRulesForBinding _ => true | _ => false end.

(** A Go call either returns or panics. *)
Inductive Outcome (A : Type) : Type :=
| Ret (a : A)
| Panic (msg : string).
Arguments Ret {A} a.
Arguments Panic {A} msg.

Definition M (A : Type) : Type := Trace -> Outcome A * Trace.

Definition ret {A} (a : A) : M A := fun t => (Ret a, t).

Definition bind {A B} (m : M A) (k : A -> M B) : M B :=
  fun t =>
    match m t with
    | (Ret a, t') => k a t'
    | (Panic msg, t') => (Panic msg, t')
    end.

Definition panic {A} (msg : string) : M A := fun t => (Panic msg, t).

(** A call to a collaborator: the answer is a function of the history, and
    the call is appended to it. *)
Definition call {A} (ev : Event) (answer : Trace -> A) : M A :=
  fun t => (Ret (answer t), t ++ [ev]).

Declare Scope go_scope.
Delimit Scope go_scope with go.
Notation "x <- m ;; k" := (bind m (fun x => k))
  (at level 61, m at next level, right associativity) : go_scope.

(** [xs[0]]: Go panics on an empty slice. *)
Definition index0 (xs : list string) : M string :=
  match xs with
  | x :: _ => ret x
  | [] => panic "runtime error: index out of range [0] with length 0"
  end.

(** [for _, x := range xs { body }], the variables the body assigns being
    threaded as [s]. *)
Fixpoint for_range {A S} (xs : list A) (body : A -> S -> M S) (s : S) : M S :=
  match xs with
  | [] => ret s
  | x :: xs' => bind (body x s) (for_range xs' body)
  end.

(** ** The validator *)

(** The three clients a [BindingValidator] holds.  Each is given as the
    answer it returns to a call, as a function of the calls made so far. *)
Record BindingValidator :=
  { ssarClient : Trace -> authv1.ResourceAttributes -> option error;
    rbacClient : Trace -> ctlres.Resource -> list rbacv1.PolicyRule + error;
    mapper : Trace -> schema.GroupKind -> string -> meta.RESTMapping + error }.

Definition NewBindingValidator
    (ssarClient : Trace -> authv1.ResourceAttributes -> option error)
    (rbacClient : Trace -> ctlres.Resource -> list rbacv1.PolicyRule + error)
    (mapper : Trace -> schema.GroupKind -> string -> meta.RESTMapping + error)
    : BindingValidator :=
  {| rbacClient := rbacClient; ssarClient := ssarClient; mapper := mapper |}.

(** [bv.mapper.RESTMapping(gk, version)] *)
Definition RESTMapping (bv : BindingValidator) (gk : schema.GroupKind)
    (version : string) : M (meta.RESTMapping + error) :=
  call (EvRESTMapping gk version) (fun t => mapper bv t gk version).

(** [ValidatePermissions(ctx, bv.ssarClient, attrs)]: nil when the
    principal holds the permission, an error when it is denied or when the
    review could not be made. *)
Definition ValidatePermissions (bv : BindingValidator)
    (attrs : authv1.ResourceAttributes) : M (option error) :=
  call (EvValidatePermissions attrs) (fun t => ssarClient bv t attrs).

(** [RulesForBinding(ctx, bv.rbacClient, res)] *)
Definition RulesForBinding (bv : BindingValidator) (res : ctlres.Resource)
    : M (list rbacv1.PolicyRule + error) :=
  call (EvRulesForBinding res) (fun t => rbacClient bv t res).

Section Validate.

(** [validation.BreakdownRule] of k8s.io/component-helpers, a dependency
    outside this repository. *)
Variable BreakdownRule : rbacv1.PolicyRule -> list rbacv1.PolicyRule.

Variable bv : BindingValidator.

Local Open Scope go_scope.

Definition Validate (res : ctlres.Resource) (verb : string) : M (option error) :=
  r <- RESTMapping bv (ctlres.GroupKind res) (schema.gv_Version (ctlres.GroupVersion res)) ;;
  match r with
  | inr err => ret (Some err)
  | inl mapping =>
    if (verb =? "create") || (verb =? "update") then
      err <- ValidatePermissions bv
               {| authv1.Group := schema.Group (meta.Resource mapping);
                  authv1.Version := schema.Version (meta.Resource mapping);
                  authv1.Resource := schema.Resource (meta.Resource mapping);
                  authv1.Namespace := ctlres.Namespace res;
                  authv1.Name := ctlres.Name res;
                  authv1.Verb := "bind" |} ;;
      match err with
      | None => ret None
      | Some _ =>
        err <- ValidatePermissions bv
                 {| authv1.Group := schema.Group (meta.Resource mapping);
                    authv1.Version := schema.Version (meta.Resource mapping);
                    authv1.Resource := schema.Resource (meta.Resource mapping);
                    authv1.Namespace := ctlres.Namespace res;
                    authv1.Name := ctlres.Name res;
                    authv1.Verb := verb |} ;;
        match err with
        | Some e => ret (Some e)
        | None =>
          r <- RulesForBinding bv res ;;
          match r with
          | inr err => ret (Some (wrapError "fetching rules for binding: %w" err))
          | inl rules =>
            errorSet <-
              for_range rules (fun rule errorSet =>
                for_range (BreakdownRule rule) (fun subrule errorSet =>
                  resourceName <-
                    (if (0 <? length (rbacv1.ResourceNames subrule))%nat
                     then index0 (rbacv1.ResourceNames subrule)
                     else ret EmptyString) ;;
                  group <- index0 (rbacv1.APIGroups subrule) ;;
                  resource <- index0 (rbacv1.Resources subrule) ;;
                  verb0 <- index0 (rbacv1.Verbs subrule) ;;
                  err <- ValidatePermissions bv
                           {| authv1.Group := group;
                              authv1.Version := EmptyString;
                              authv1.Resource := resource;
                              authv1.Namespace := ctlres.Namespace res;
                              authv1.Name := resourceName;
                              authv1.Verb := verb0 |} ;;
                  match err with
                  | Some e => ret (errorSet ++ [e])
                  | None => ret errorSet
                  end) errorSet) [] ;;
            if (0 <? length errorSet)%nat then
              let baseErr :=
                fmtError "potential privilege escalation, not permitted to %q %s"
                  [ArgQ verb;
                   ArgS (schema.WithKind (ctlres.GroupVersion res) (ctlres.Kind res))] in
              ret (errors_Join (Some baseErr :: map Some errorSet))
            else ret None
          end
        end
      end
    else
      ValidatePermissions bv
        {| authv1.Group := schema.Group (meta.Resource mapping);
           authv1.Version := schema.Version (meta.Resource mapping);
           authv1.Resource := schema.Resource (meta.Resource mapping);
           authv1.Namespace := ctlres.Namespace res;
           authv1.Name := ctlres.Name res;
           authv1.Verb := verb |}
  end.

End Validate.

Module validation.

(** Modelled from the spec: [validation.BreakdownRule] belongs to
    k8s.io/component-helpers and is not in the source tree.  Section 4.1:
    the full cross-product of API groups, resource types and verbs, every
    atomic rule naming one of each and carrying, when the rule has
    resource names, a single representative name, the first one. *)
Definition BreakdownRule (rule : rbacv1.PolicyRule) : list rbacv1.PolicyRule :=
  flat_map (fun group =>
    flat_map (fun resource =>
      map (fun verb =>
             {| rbacv1.Verbs := [verb];
                rbacv1.APIGroups := [group];
                rbacv1.Resources := [resource];
                rbacv1.ResourceNames := firstn 1 (rbacv1.ResourceNames rule) |})
          (rbacv1.Verbs rule))
      (rbacv1.Resources rule))
    (rbacv1.APIGroups rule).

End validation.

(** ** Vocabulary of the specification *)

(** The attributes of a check against the binding resource itself. *)
Definition bindingAttrs (mapping : meta.RESTMapping) (res : ctlres.Resource)
    (verb : string) : authv1.ResourceAttributes :=
  {| authv1.Group := schema.Group (meta.Resource mapping);
     authv1.Version := schema.Version (meta.Resource mapping);
     authv1.Resource := schema.Resource (meta.Resource mapping);
     authv1.Namespace := ctlres.Namespace res;
     authv1.Name := ctlres.Name res;
     authv1.Verb := verb |}.

(** The name an escalation check asks about: the first resource name of
    the subrule, or the empty name. *)
Definition checked_name (subrule : rbacv1.PolicyRule) : string :=
  match rbacv1.ResourceNames subrule with
  | name :: _ => name
  | [] => EmptyString
  end.

(** The grant a subrule stands for. *)
Definition subruleAttrs (res : ctlres.Resource) (subrule : rbacv1.PolicyRule)
    : authv1.ResourceAttributes :=
  {| authv1.Group := hd EmptyString (rbacv1.APIGroups subrule);
     authv1.Version := EmptyString;
     authv1.Resource := hd EmptyString (rbacv1.Resources subrule);
     authv1.Namespace := ctlres.Namespace res;
     authv1.Name := checked_name subrule;
     authv1.Verb := hd EmptyString (rbacv1.Verbs subrule) |}.

(** The subrule of one group, one resource type and one verb. *)
Definition atom (group resource verb : string) (names : list string)
    : rbacv1.PolicyRule :=
  {| rbacv1.Verbs := [verb];
     rbacv1.APIGroups := [group];
     rbacv1.Resources := [resource];
     rbacv1.ResourceNames := names |}.

(** A subrule names at least one group, one resource type and one verb. *)
Definition atomic (subrule : rbacv1.PolicyRule) : Prop :=
  rbacv1.APIGroups subrule <> [] /\
  rbacv1.Resources subrule <> [] /\
  rbacv1.Verbs subrule <> [].

(** A subrule names exactly one group, one resource type and one verb. *)
Definition single_valued (subrule : rbacv1.PolicyRule) : Prop :=
  length (rbacv1.APIGroups subrule) = 1 /\
  length (rbacv1.Resources subrule) = 1 /\
  length (rbacv1.Verbs subrule) = 1.

(** The errors among the answers of a series of checks. *)
Definition failures (answers : list (option error)) : list error :=
  flat_map (fun a => match a with Some e => [e] | None => [] end) answers.

(** The answers the authorization service gives when [checks] are issued
    one after the other, starting with history [t]. *)
Fixpoint answers (bv : BindingValidator) (t : Trace)
    (checks : list authv1.ResourceAttributes) : list (option error) :=
  match checks with
  | [] => []
  | c :: checks' =>
    ssarClient bv t c :: answers bv (t ++ [EvValidatePermissions c]) checks'
  end.

(** The trace at the successive points of a validation started at [t]. *)
Definition after_mapping (res : ctlres.Resource) (t : Trace) : Trace :=
  t ++ [EvRESTMapping (ctlres.GroupKind res)
                      (schema.gv_Version (ctlres.GroupVersion res))].

Definition after_bind_check (mapping : meta.RESTMapping) (res : ctlres.Resource)
    (t : Trace) : Trace :=
  after_mapping res t ++ [EvValidatePermissions (bindingAttrs mapping res "bind")].

Definition after_direct_check (mapping : meta.RESTMapping) (res : ctlres.Resource)
    (verb : string) (t : Trace) : Trace :=
  after_bind_check mapping res t
    ++ [EvValidatePermissions (bindingAttrs mapping res verb)].

Definition after_resolution (mapping : meta.RESTMapping) (res : ctlres.Resource)
    (verb : string) (t : Trace) : Trace :=
  after_direct_check mapping res verb t ++ [EvRulesForBinding res].

(** The answers of the collaborators at those points. *)
Definition mapping_answer (bv : BindingValidator) (res : ctlres.Resource)
    (t : Trace) : meta.RESTMapping + error :=
  mapper bv t (ctlres.GroupKind res) (schema.gv_Version (ctlres.GroupVersion res)).

Definition bind_answer (bv : BindingValidator) (mapping : meta.RESTMapping)
    (res : ctlres.Resource) (t : Trace) : option error :=
  ssarClient bv (after_mapping res t) (bindingAttrs mapping res "bind").

Definition direct_answer (bv : BindingValidator) (mapping : meta.RESTMapping)
    (res : ctlres.Resource) (verb : string) (t : Trace) : option error :=
  ssarClient bv (after_bind_check mapping res t) (bindingAttrs mapping res verb).

Definition resolution_answer (bv : BindingValidator) (mapping : meta.RESTMapping)
    (res : ctlres.Resource) (verb : string) (t : Trace)
    : list rbacv1.PolicyRule + error :=
  rbacClient bv (after_direct_check mapping res verb t) res.

(** The escalation path: [create] or [update], the kind is mapped, "bind"
    is refused, the verb itself is granted and the role resolves to [rules]. *)
Definition escalation_path (bv : BindingValidator) (mapping : meta.RESTMapping)
    (res : ctlres.Resource) (verb : string) (t : Trace)
    (rules : list rbacv1.PolicyRule) : Prop :=
  (verb = "create" \/ verb = "update") /\
  mapping_answer bv res t = inl mapping /\
  bind_answer bv mapping res t <> None /\
  direct_answer bv mapping res verb t = None /\
  resolution_answer bv mapping res verb t = inl rules.

(** The error of a failed escalation check. *)
Definition PrivilegeEscalationError (res : ctlres.Resource) (verb : string)
    (failed : list error) : error :=
  joinError
    (fmtError escalation_format
       [ArgQ verb; ArgS (schema.WithKind (ctlres.GroupVersion res) (ctlres.Kind res))]
     :: failed).

(** ** Fake collaborators, with deterministic answers *)

Module fake.

Definition rolebindings : meta.RESTMapping :=
  {| meta.Resource :=
       {| schema.Group := "rbac.authorization.k8s.io";
          schema.Version := "v1";
          schema.Resource := "rolebindings" |} |}.

(** Knows the kind RoleBinding only. *)
Definition mapper (t : Trace) (gk : schema.GroupKind) (version : string)
    : meta.RESTMapping + error :=
  if schema.gk_Kind gk =? "RoleBinding" then inl rolebindings
  else inr (AddressingError "no matches for kind").

(** Grants the (verb, resource type) pairs of [granted], denies the rest. *)
Definition ssar (granted : list (string * string)) (t : Trace)
    (attrs : authv1.ResourceAttributes) : option error :=
  if existsb (fun g => (fst g =? authv1.Verb attrs)
                       && (snd g =? authv1.Resource attrs)) granted
  then None
  else Some (PermissionDeniedError attrs).

(** Cannot reach the authorization service for "bind", grants the rest. *)
Definition ssar_bind_unreachable (t : Trace)
    (attrs : authv1.ResourceAttributes) : option error :=
  if authv1.Verb attrs =? "bind" then Some (TransportError "connection refused")
  else None.

(** Cannot reach the authorization service at all. *)
Definition ssar_unreachable (t : Trace)
    (attrs : authv1.ResourceAttributes) : option error :=
  Some (TransportError "connection refused").

(** Knows the role pod-reader only. *)
Definition rbac (rules : list rbacv1.PolicyRule) (t : Trace)
    (res : ctlres.Resource) : list rbacv1.PolicyRule + error :=
  if ctlres.ref_Name (ctlres.roleRef res) =? "pod-reader" then inl rules
  else inr (NotFoundError "roles.rbac.authorization.k8s.io not found").

Definition binding (kind roleName : string) : ctlres.Resource :=
  {| ctlres.Kind := kind;
     ctlres.APIGroup := "rbac.authorization.k8s.io";
     ctlres.APIVersion := "v1";
     ctlres.Namespace := "default";
     ctlres.Name := "read-pods";
     ctlres.roleRef := {| ctlres.ref_Kind := "Role"; ctlres.ref_Name := roleName |} |}.

Definition read_pods : ctlres.Resource := binding "RoleBinding" "pod-reader".

(** Verbs get and list on pods and services of the core group. *)
Definition pod_reader : rbacv1.PolicyRule :=
  {| rbacv1.Verbs := ["get"; "list"];
     rbacv1.APIGroups := [EmptyString];
     rbacv1.Resources := ["pods"; "services"];
     rbacv1.ResourceNames := [] |}.

(** Verb get on the two named config maps web and db. *)
Definition named_reader : rbacv1.PolicyRule :=
  {| rbacv1.Verbs := ["get"];
     rbacv1.APIGroups := [EmptyString];
     rbacv1.Resources := ["configmaps"];
     rbacv1.ResourceNames := ["web"; "db"] |}.

Definition validator (granted : list (string * string))
    (rules : list rbacv1.PolicyRule) : BindingValidator :=
  NewBindingValidator (ssar granted) (rbac rules) mapper.

Definition unreachable : BindingValidator :=
  NewBindingValidator ssar_bind_unreachable (rbac [pod_reader]) mapper.

Definition offline : BindingValidator :=
  NewBindingValidator ssar_unreachable (rbac [pod_reader]) mapper.

End fake.

(** ** Further vocabulary: panics and calls *)

Definition index_out_of_range : string :=
  "runtime error: index out of range [0] with length 0".

Definition is_mapping (ev : Event) : bool :=
  match ev with EvRESTMapping _ _ => true | _ => false end.

(** [len(xs) > 0] *)
Definition non_empty (xs : list string) : bool :=
  match xs with [] => false | _ :: _ => true end.

(** The decision of [atomic]. *)
Definition atomicb (subrule : rbacv1.PolicyRule) : bool :=
  non_empty (rbacv1.APIGroups subrule)
  && non_empty (rbacv1.Resources subrule)
  && non_empty (rbacv1.Verbs subrule).

(** A rule no verb of which is listed. *)
Definition verbless : rbacv1.PolicyRule :=
  {| rbacv1.Verbs := [];
     rbacv1.APIGroups := [EmptyString];
     rbacv1.Resources := ["pods"];
     rbacv1.ResourceNames := [] |}.

(** Two authorization services that differ in the first answer they give
    after one call only: the first cannot be reached then, the second
    denies; both grant everything else. *)
Definition ssar_unreachable_once (t : Trace)
    (attrs : authv1.ResourceAttributes) : option error :=
  if (length t =? 1)%nat then Some (TransportError "connection refused") else None.

Definition ssar_denied_once (t : Trace)
    (attrs : authv1.ResourceAttributes) : option error :=
  if (length t =? 1)%nat then Some (PermissionDeniedError attrs) else None.

(** ** The "exists" apply strategy (package [clusterapply]) *)

Module clusterapply.

(** [type ExistsChangeError struct{}] *)
Inductive ExistsChangeError : Type := Build_ExistsChangeError.

(** [func (e ExistsChangeError) Error() string]; [fmt.Sprint] of one string
    is that string. *)
Definition Error (e : ExistsChangeError) : string :=
  "External resource doesn't exists".

(** [type ClusterChangeApplyStrategyOp string] *)
Definition ClusterChangeApplyStrategyOp : Type := string.

Section ExistsChange.

(** [ctlres.ExistsOpts], declared outside the source tree, and its zero
    value [ctlres.ExistsOpts{}]. *)
Variable ExistsOpts : Type.
Variable zeroOpts : ExistsOpts.

(** The errors the lookup of a resource can return. *)
Variable LookupError : Type.

(** A non-nil [error] returned by [Apply]: the error of this package, or
    the error of the lookup passed on. *)
Inductive error : Type :=
| existsChangeError (e : ExistsChangeError)
| lookupError (e : LookupError).

(** [ctlres.IdentifiedResources], by its method
    [Exists(res, opts) (Resource, bool, error)]. *)
Record IdentifiedResources :=
  { Exists : ctlres.Resource -> ExistsOpts
             -> option ctlres.Resource * bool * option LookupError }.

(** [ctldiff.Change], by its method [NewResource()]. *)
Record Change := { NewResource : ctlres.Resource }.

Record ExistsChange :=
  { change : Change;
    identifiedResources : IdentifiedResources }.

Record ExistsStrategy :=
  { res : ctlres.Resource;
    strategy_identifiedResources : IdentifiedResources }.

Definition ApplyStrategy (c : ExistsChange) : ExistsStrategy * option error :=
  let res := NewResource (change c) in
  ({| res := res; strategy_identifiedResources := identifiedResources c |}, None).

Definition Op (e : ExistsStrategy) : ClusterChangeApplyStrategyOp := EmptyString.

Definition Apply (e : ExistsStrategy) : option error :=
  let '(_, exists_, err) :=
    Exists (strategy_identifiedResources e) (res e) zeroOpts in
  if negb exists_ then
    match err with
    | Some err' => Some (lookupError err')
    | None => Some (existsChangeError Build_ExistsChangeError)
    end
  else None.

(** What the lookup made by [Apply] reports: whether the resource exists,
    and with what error. *)
Definition found (e : ExistsStrategy) : bool :=
  snd (fst (Exists (strategy_identifiedResources e) (res e) zeroOpts)).

Definition lookup_failure (e : ExistsStrategy) : option LookupError :=
  snd (Exists (strategy_identifiedResources e) (res e) zeroOpts).

End ExistsChange.

Arguments found {ExistsOpts} zeroOpts {LookupError} e.
Arguments lookup_failure {ExistsOpts} zeroOpts {LookupError} e.
Arguments existsChangeError {LookupError} e.
Arguments lookupError {LookupError} e.
Arguments Exists {ExistsOpts LookupError} i _ _.
Arguments change {ExistsOpts LookupError} e.
Arguments identifiedResources {ExistsOpts LookupError} e.
Arguments res {ExistsOpts LookupError} e.
Arguments strategy_identifiedResources {ExistsOpts LookupError} e.
Arguments ApplyStrategy {ExistsOpts LookupError} c.
Arguments Op {ExistsOpts LookupError} e.
Arguments Apply {ExistsOpts} zeroOpts {LookupError} e.

End clusterapply.

(** ** Loops and answers *)

Lemma failures_app (xs ys : list (option error)) :
  failures (xs ++ ys) = failures xs ++ failures ys.
Proof. unfold failures. apply flat_map_app. Qed.

(** The answer to the [i]-th check is the one the service gives after the
    [i] checks before it. *)
Lemma answers_nth bv checks : forall t i c,
  nth_error checks i = Some c ->
  nth_error (answers bv t checks) i =
  Some (ssarClient bv (t ++ map EvValidatePermissions (firstn i checks)) c).
Proof.
  induction checks as [|c0 checks IH]; intros t i c Hi.
  - destruct i; discriminate.
  - destruct i as [|i]; simpl in *.
    + injection Hi as ->. now rewrite app_nil_r.
    + rewrite (IH _ _ _ Hi). now rewrite <- app_assoc.
Qed.

Lemma in_failures (e : error) (l : list (option error)) :
  In (Some e) l -> In e (failures l).
Proof.
  intros H. unfold failures. apply in_flat_map.
  exists (Some e). split; [exact H | now left].
Qed.

Lemma failures_all_granted (l : list (option error)) :
  Forall (fun a => a = None) l -> failures l = [].
Proof.
  induction 1 as [|a l Ha _ IH]; [reflexivity|].
  subst a. exact IH.
Qed.

Lemma for_range_app {A S} (body : A -> S -> M S) (xs ys : list A) : forall s t,
  for_range (xs ++ ys) body s t = bind (for_range xs body s) (for_range ys body) t.
Proof.
  induction xs as [|x xs IH]; intros s t; simpl.
  - reflexivity.
  - unfold bind. destruct (body x s t) as [[s'|msg] t'].
    + apply IH.
    + reflexivity.
Qed.

(** Two nested [range] loops run the inner body over the concatenation. *)
Lemma for_range_nested {A B S} (f : A -> list B) (inner : B -> S -> M S)
    (xs : list A) : forall s t,
  for_range xs (fun x s' => for_range (f x) inner s') s t =
  for_range (flat_map f xs) inner s t.
Proof.
  induction xs as [|x xs IH]; intros s t; simpl.
  - reflexivity.
  - rewrite for_range_app. unfold bind.
    destruct (for_range (f x) inner s t) as [[s'|msg] t'].
    + apply IH.
    + reflexivity.
Qed.

(** A loop whose body issues one check per element and appends its error,
    if any: every element is checked, whatever the earlier answers were. *)
Lemma for_range_checks {A} (bv : BindingValidator)
    (attrs : A -> authv1.ResourceAttributes)
    (body : A -> list error -> M (list error)) (xs : list A) :
  (forall x errs t, In x xs ->
     body x errs t =
     (Ret (errs ++ failures [ssarClient bv t (attrs x)]),
      t ++ [EvValidatePermissions (attrs x)])) ->
  forall errs t,
    for_range xs body errs t =
    (Ret (errs ++ failures (answers bv t (map attrs xs))),
     t ++ map EvValidatePermissions (map attrs xs)).
Proof.
  induction xs as [|x xs IH]; intros Hbody errs t; cbn [for_range map answers].
  - unfold ret. cbn. now rewrite !app_nil_r.
  - unfold bind. rewrite Hbody by now left.
    rewrite IH by (intros; apply Hbody; now right).
    rewrite <- !app_assoc. f_equal.
    destruct (ssarClient bv t (attrs x)); reflexivity.
Qed.

(** Whatever the body does, a loop only adds calls to the trace. *)
Lemma for_range_extends {A S} (body : A -> S -> M S) (xs : list A) :
  (forall x s t, exists d, snd (body x s t) = t ++ d) ->
  forall s t, exists d, snd (for_range xs body s t) = t ++ d.
Proof.
  intros Hbody. induction xs as [|x xs IH]; intros s t; simpl.
  - exists []. now rewrite app_nil_r.
  - unfold bind. destruct (Hbody x s t) as [d Hd].
    destruct (body x s t) as [[s'|msg] t']; simpl in Hd; subst t'.
    + destruct (IH s' (t ++ d)) as [d' Hd']. exists (d ++ d').
      now rewrite Hd', app_assoc.
    + now exists d.
Qed.

(** Joining errors none of which is nil keeps them all, in order. *)
Lemma errors_Join_non_nil (e : error) (es : list error) :
  errors_Join (Some e :: map Some es) = Some (joinError (e :: es)).
Proof.
  unfold errors_Join. cbn. f_equal. f_equal. f_equal.
  induction es as [|e' es IH]; cbn; [reflexivity | now rewrite IH].
Qed.

(** ** The stages of [Validate] *)

Section Stages.

Variable BreakdownRule : rbacv1.PolicyRule -> list rbacv1.PolicyRule.
Variable bv : BindingValidator.
Variable res : ctlres.Resource.
Variable t : Trace.

Ltac run_calls :=
  unfold Validate, RESTMapping, ValidatePermissions, RulesForBinding,
    bind, call, ret.

Lemma escalation_verb_test verb :
  verb = "create" \/ verb = "update" ->
  (verb =? "create") || (verb =? "update") = true.
Proof. intros [-> | ->]; reflexivity. Qed.

Lemma other_verb_test verb :
  verb <> "create" -> verb <> "update" ->
  (verb =? "create") || (verb =? "update") = false.
Proof.
  intros Hc Hu. apply orb_false_iff. split; now apply String.eqb_neq.
Qed.

(** The kind cannot be mapped: the mapper's error, for any verb. *)
Lemma Validate_unmapped verb err :
  mapping_answer bv res t = inr err ->
  Validate BreakdownRule bv res verb t = (Ret (Some err), after_mapping res t).
Proof.
  unfold mapping_answer. intros Hmap. run_calls. now rewrite Hmap.
Qed.

(** A verb other than create and update: one direct check. *)
Lemma Validate_other_verb verb mapping :
  verb <> "create" -> verb <> "update" ->
  mapping_answer bv res t = inl mapping ->
  Validate BreakdownRule bv res verb t =
  (Ret (ssarClient bv (after_mapping res t) (bindingAttrs mapping res verb)),
   after_mapping res t ++ [EvValidatePermissions (bindingAttrs mapping res verb)]).
Proof.
  unfold mapping_answer. intros Hc Hu Hmap. run_calls.
  rewrite Hmap, (other_verb_test verb Hc Hu). reflexivity.
Qed.

Section Escalation.

Variable verb : string.
Variable mapping : meta.RESTMapping.
Hypothesis Hverb : verb = "create" \/ verb = "update".
Hypothesis Hmap : mapping_answer bv res t = inl mapping.

(** "bind" is granted: authorized at once. *)
Lemma Validate_bind_granted :
  bind_answer bv mapping res t = None ->
  Validate BreakdownRule bv res verb t = (Ret None, after_bind_check mapping res t).
Proof.
  unfold mapping_answer, bind_answer, bindingAttrs in *. intros Hbind. run_calls.
  rewrite Hmap, (escalation_verb_test verb Hverb).
  unfold after_mapping in Hbind. rewrite Hbind. reflexivity.
Qed.

(** "bind" fails, whatever the error, and the verb itself fails too:
    the error of the second check. *)
Lemma Validate_direct_refused err :
  bind_answer bv mapping res t <> None ->
  direct_answer bv mapping res verb t = Some err ->
  Validate BreakdownRule bv res verb t =
  (Ret (Some err), after_direct_check mapping res verb t).
Proof.
  unfold mapping_answer, bind_answer, direct_answer, after_bind_check,
    after_mapping, bindingAttrs in *.
  intros Hbind Hdirect. run_calls.
  rewrite Hmap, (escalation_verb_test verb Hverb).
  destruct (ssarClient bv _ _) as [e1|] in Hbind |- *; [|contradiction].
  rewrite Hdirect. reflexivity.
Qed.

(** The role cannot be resolved: the resolver's error, wrapped. *)
Lemma Validate_unresolved err :
  bind_answer bv mapping res t <> None ->
  direct_answer bv mapping res verb t = None ->
  resolution_answer bv mapping res verb t = inr err ->
  Validate BreakdownRule bv res verb t =
  (Ret (Some (wrapError "fetching rules for binding: %w" err)),
   after_resolution mapping res verb t).
Proof.
  unfold mapping_answer, bind_answer, direct_answer, resolution_answer,
    after_resolution, after_direct_check, after_bind_check, after_mapping,
    bindingAttrs in *.
  intros Hbind Hdirect Hrules. run_calls.
  rewrite Hmap, (escalation_verb_test verb Hverb).
  destruct (ssarClient bv _ _) as [e1|] in Hbind |- *; [|contradiction].
  rewrite Hdirect, Hrules. reflexivity.
Qed.

(** The check of one subrule, as the body of the inner loop makes it. *)
Lemma subrule_check subrule (errorSet : list error) (t' : Trace) :
  atomic subrule ->
  bind (if (0 <? length (rbacv1.ResourceNames subrule))%nat
        then index0 (rbacv1.ResourceNames subrule) else ret EmptyString)
    (fun resourceName =>
     bind (index0 (rbacv1.APIGroups subrule)) (fun group =>
     bind (index0 (rbacv1.Resources subrule)) (fun resource =>
     bind (index0 (rbacv1.Verbs subrule)) (fun verb0 =>
     bind (ValidatePermissions bv
             {| authv1.Group := group;
                authv1.Version := EmptyString;
                authv1.Resource := resource;
                authv1.Namespace := ctlres.Namespace res;
                authv1.Name := resourceName;
                authv1.Verb := verb0 |})
       (fun err => match err with
                   | Some e => ret (errorSet ++ [e])
                   | None => ret errorSet
                   end))))) t' =
  (Ret (errorSet ++ failures [ssarClient bv t' (subruleAttrs res subrule)]),
   t' ++ [EvValidatePermissions (subruleAttrs res subrule)]).
Proof.
  intros (Hg & Hr & Hv). unfold subruleAttrs, checked_name.
  destruct subrule as [verbs groups resources names]; cbn in *.
  destruct groups as [|g ?]; [contradiction|].
  destruct resources as [|r ?]; [contradiction|].
  destruct verbs as [|v ?]; [contradiction|].
  destruct names as [|n ?]; cbn;
    unfold ValidatePermissions, bind, call, ret; cbn;
    destruct (ssarClient bv t' _); cbn; now rewrite ?app_nil_r.
Qed.

(** Runs [Validate] up to its loops, along the escalation path. *)
Ltac enter_loops Hbind Hdirect Hrules :=
  unfold mapping_answer, bind_answer, direct_answer, resolution_answer in *;
  unfold bind at 1; unfold RESTMapping, call at 1;
  rewrite Hmap, (escalation_verb_test verb Hverb);
  unfold bind at 1; unfold ValidatePermissions at 1; unfold call at 1;
  fold (after_mapping res t); fold (bindingAttrs mapping res "bind");
  destruct (ssarClient bv _ _) in Hbind |- *; [|contradiction];
  unfold bind at 1; unfold ValidatePermissions at 1; unfold call at 1;
  fold (after_bind_check mapping res t); fold (bindingAttrs mapping res verb);
  rewrite Hdirect;
  unfold bind at 1; unfold RulesForBinding, call at 1;
  fold (after_direct_check mapping res verb t); rewrite Hrules;
  fold (after_resolution mapping res verb t).

(** The escalation path: every subrule of every rule is checked, and
    the failed checks decide. *)
Lemma Validate_escalation rules :
  bind_answer bv mapping res t <> None ->
  direct_answer bv mapping res verb t = None ->
  resolution_answer bv mapping res verb t = inl rules ->
  Forall atomic (flat_map BreakdownRule rules) ->
  let checks := map (subruleAttrs res) (flat_map BreakdownRule rules) in
  let failed := failures (answers bv (after_resolution mapping res verb t) checks) in
  Validate BreakdownRule bv res verb t =
  (Ret (match failed with
        | [] => None
        | _ :: _ => Some (PrivilegeEscalationError res verb failed)
        end),
   after_resolution mapping res verb t ++ map EvValidatePermissions checks).
Proof.
  intros Hbind Hdirect Hrules Hatomic checks failed.
  unfold Validate. enter_loops Hbind Hdirect Hrules.
  unfold bind at 1. rewrite for_range_nested.
  rewrite (for_range_checks bv (subruleAttrs res)).
  2:{ intros x errs t' Hx. apply subrule_check.
      exact (proj1 (Forall_forall _ _) Hatomic x Hx). }
  fold checks. cbn [app]. fold failed.
  destruct failed as [|e0 failed']; [reflexivity|].
  cbn [length Nat.ltb Nat.leb]. unfold ret.
  now rewrite errors_Join_non_nil.
Qed.

(** Once "bind" has failed, the check of the verb itself is issued next,
    whatever happens afterwards. *)
Lemma Validate_reaches_direct_check :
  bind_answer bv mapping res t <> None ->
  exists out d,
    Validate BreakdownRule bv res verb t =
    (out, after_direct_check mapping res verb t ++ d).
Proof.
  intros Hbind.
  destruct (direct_answer bv mapping res verb t) as [e2|] eqn:Hdirect.
  { exists (Ret (Some e2)), []. rewrite app_nil_r.
    now apply Validate_direct_refused. }
  destruct (resolution_answer bv mapping res verb t) as [rules|e3] eqn:Hrules.
  2:{ exists (Ret (Some (wrapError "fetching rules for binding: %w" e3))),
             [EvRulesForBinding res].
      now apply Validate_unresolved. }
  unfold Validate. enter_loops Hbind Hdirect Hrules.
  unfold bind at 1.
  match goal with
  | |- context [for_range rules ?body [] ?t4] =>
    destruct (for_range_extends body rules) with (s := @nil error) (t := t4)
      as [d Hd]
  end.
  - intros rule s t'. apply for_range_extends. clear. intros subrule s t'.
    destruct subrule as [verbs groups resources names]; cbn.
    unfold ValidatePermissions, bind, call, ret.
    destruct names, groups, resources, verbs; cbn;
      try (now exists []; rewrite app_nil_r);
      destruct (ssarClient bv t' _); cbn; now eexists.
  - destruct (for_range rules _ [] _) as [[errorSet|msg] t'];
      cbn in Hd; subst t'.
    all: unfold after_resolution; rewrite <- app_assoc.
    + destruct (0 <? length errorSet)%nat; unfold ret; eexists; eexists;
        reflexivity.
    + eexists; eexists; reflexivity.
Qed.

End Escalation.

End Stages.

(** Without the guarantee that a subrule names a group, a resource type and
    a verb, indexing the empty slice panics before the check is issued. *)
Example Validate_panics_on_empty_subrule :
  Validate (fun rule => [rule])
    (fake.validator [("create", "rolebindings")]
       [{| rbacv1.Verbs := ["get"]; rbacv1.APIGroups := [];
           rbacv1.Resources := ["pods"]; rbacv1.ResourceNames := [] |}])
    fake.read_pods "create" [] =
  (Panic "runtime error: index out of range [0] with length 0",
   after_resolution fake.rolebindings fake.read_pods "create" []).
Proof. reflexivity. Qed.

(** ** The specification *)

(** C1, as the code has it: for create and update, a failed "bind" check is
    never returned, be it a denial or a transport failure; whatever its
    error, the check of the verb itself is issued next, and it is the error
    of that second check, of either kind, that is returned at once. *)
Theorem bind_failure_falls_through BreakdownRule bv mapping res verb t e :
  verb = "create" \/ verb = "update" ->
  mapping_answer bv res t = inl mapping ->
  bind_answer bv mapping res t = Some e ->
  (exists out d,
     Validate BreakdownRule bv res verb t =
     (out, after_direct_check mapping res verb t ++ d)) /\
  (forall e', direct_answer bv mapping res verb t = Some e' ->
     Validate BreakdownRule bv res verb t =
     (Ret (Some e'), after_direct_check mapping res verb t)).
Proof.
  intros Hverb Hmap Hbind.
  assert (Hfail : bind_answer bv mapping res t <> None) by now rewrite Hbind.
  split.
  - now apply Validate_reaches_direct_check.
  - intros e' Hdirect. now apply Validate_direct_refused.
Qed.

Lemma bind_failure_falls_through_witness :
  (exists out d,
     Validate validation.BreakdownRule fake.offline fake.read_pods "create" [] =
     (out, after_direct_check fake.rolebindings fake.read_pods "create" [] ++ d)) /\
  Validate validation.BreakdownRule fake.offline fake.read_pods "create" [] =
  (Ret (Some (TransportError "connection refused")),
   after_direct_check fake.rolebindings fake.read_pods "create" []).
Proof.
  destruct (bind_failure_falls_through validation.BreakdownRule fake.offline
              fake.rolebindings fake.read_pods "create" []
              (TransportError "connection refused")) as [Hnext Hreturned].
  - left. reflexivity.
  - reflexivity.
  - reflexivity.
  - split; [exact Hnext|]. apply Hreturned. reflexivity.
Defined.

(** C1, as the specification words it, fails: the authorization service
    cannot be reached for the "bind" check of a create, yet [Validate] goes
    on to check create, resolves the role, checks its four grants and
    returns nil, instead of returning the transport failure after the
    "bind" check. *)
Lemma bind_transport_failure_not_propagated :
  bind_answer fake.unreachable fake.rolebindings fake.read_pods []
    = Some (TransportError "connection refused") /\
  is_transport_failure (TransportError "connection refused") = true /\
  Validate validation.BreakdownRule fake.unreachable fake.read_pods "create" [] =
    (Ret None,
     [EvRESTMapping (ctlres.GroupKind fake.read_pods) "v1";
      EvValidatePermissions (bindingAttrs fake.rolebindings fake.read_pods "bind");
      EvValidatePermissions (bindingAttrs fake.rolebindings fake.read_pods "create");
      EvRulesForBinding fake.read_pods;
      EvValidatePermissions
        (subruleAttrs fake.read_pods (atom EmptyString "pods" "get" []));
      EvValidatePermissions
        (subruleAttrs fake.read_pods (atom EmptyString "pods" "list" []));
      EvValidatePermissions
        (subruleAttrs fake.read_pods (atom EmptyString "services" "get" []));
      EvValidatePermissions
        (subruleAttrs fake.read_pods (atom EmptyString "services" "list" []))]) /\
  Validate validation.BreakdownRule fake.unreachable fake.read_pods "create" [] <>
    (Ret (Some (TransportError "connection refused")),
     after_bind_check fake.rolebindings fake.read_pods []).
Proof.
  repeat split; try reflexivity. discriminate.
Qed.

(** C2: for create and update, when the check of the verb "bind" on the
    binding resource is granted, [Validate] returns nil; the calls it made
    are the mapping and that one check, so the role was not resolved and
    nothing else was checked. *)
Theorem bind_shortcut BreakdownRule bv mapping res verb t :
  verb = "create" \/ verb = "update" ->
  mapping_answer bv res t = inl mapping ->
  bind_answer bv mapping res t = None ->
  Validate BreakdownRule bv res verb t =
  (Ret None,
   t ++ [EvRESTMapping (ctlres.GroupKind res)
           (schema.gv_Version (ctlres.GroupVersion res));
         EvValidatePermissions (bindingAttrs mapping res "bind")]).
Proof.
  intros Hverb Hmap Hbind.
  rewrite (Validate_bind_granted BreakdownRule bv res t verb mapping Hverb Hmap Hbind).
  unfold after_bind_check, after_mapping. now rewrite <- app_assoc.
Qed.

Lemma bind_shortcut_witness :
  Validate validation.BreakdownRule
    (fake.validator [("bind", "rolebindings")] [fake.pod_reader])
    fake.read_pods "update" [] =
  (Ret None,
   [EvRESTMapping (ctlres.GroupKind fake.read_pods) "v1";
    EvValidatePermissions (bindingAttrs fake.rolebindings fake.read_pods "bind")]).
Proof.
  apply (bind_shortcut validation.BreakdownRule
           (fake.validator [("bind", "rolebindings")] [fake.pod_reader])
           fake.rolebindings fake.read_pods "update" []).
  - right. reflexivity.
  - reflexivity.
  - reflexivity.
Defined.

(** C3: for create and update, when "bind" is denied and the verb itself
    is denied too, [Validate] returns the denial of the verb as it is: it is
    no privilege escalation error, and the trace ends with that check, so
    the role was not resolved. *)
Theorem direct_denial_returned BreakdownRule bv mapping res verb t e_bind e_verb :
  verb = "create" \/ verb = "update" ->
  mapping_answer bv res t = inl mapping ->
  bind_answer bv mapping res t = Some e_bind ->
  is_denial e_bind = true ->
  direct_answer bv mapping res verb t = Some e_verb ->
  is_denial e_verb = true ->
  Validate BreakdownRule bv res verb t =
  (Ret (Some e_verb),
   t ++ [EvRESTMapping (ctlres.GroupKind res)
           (schema.gv_Version (ctlres.GroupVersion res));
         EvValidatePermissions (bindingAttrs mapping res "bind");
         EvValidatePermissions (bindingAttrs mapping res verb)]) /\
  is_PrivilegeEscalationError e_verb = false.
Proof.
  intros Hverb Hmap Hbind _ Hdirect Hdenied. split.
  - rewrite (Validate_direct_refused BreakdownRule bv res t verb mapping
               Hverb Hmap e_verb); trivial.
    + unfold after_direct_check, after_bind_check, after_mapping.
      now rewrite <- !app_assoc.
    + now rewrite Hbind.
  - destruct e_verb; try discriminate. reflexivity.
Qed.

Lemma direct_denial_returned_witness :
  Validate validation.BreakdownRule (fake.validator [] [fake.pod_reader])
    fake.read_pods "create" [] =
  (Ret (Some (PermissionDeniedError
                (bindingAttrs fake.rolebindings fake.read_pods "create"))),
   [EvRESTMapping (ctlres.GroupKind fake.read_pods) "v1";
    EvValidatePermissions (bindingAttrs fake.rolebindings fake.read_pods "bind");
    EvValidatePermissions (bindingAttrs fake.rolebindings fake.read_pods "create")]) /\
  is_PrivilegeEscalationError
    (PermissionDeniedError (bindingAttrs fake.rolebindings fake.read_pods "create"))
  = false.
Proof.
  apply (direct_denial_returned validation.BreakdownRule
           (fake.validator [] [fake.pod_reader])
           fake.rolebindings fake.read_pods "create" []
           (PermissionDeniedError (bindingAttrs fake.rolebindings fake.read_pods "bind"))).
  - left. reflexivity.
  - reflexivity.
  - reflexivity.
  - reflexivity.
  - reflexivity.
  - reflexivity.
Defined.

(** C4: on the escalation path every subrule of every rule of the role is
    checked once, in order, whatever the earlier checks answered: the
    trace grows by exactly one check per subrule.  Every check that is
    answered with an error is among the collected failures, and when there
    is one, [Validate] returns the escalation error made of the attempted
    verb, the group, version and kind of the binding, and all failures. *)
Theorem escalation_collects_every_failure BreakdownRule bv mapping res verb t rules :
  escalation_path bv mapping res verb t rules ->
  Forall atomic (flat_map BreakdownRule rules) ->
  let t4 := after_resolution mapping res verb t in
  let checks := map (subruleAttrs res) (flat_map BreakdownRule rules) in
  let failed := failures (answers bv t4 checks) in
  exists out,
    Validate BreakdownRule bv res verb t =
      (out, t4 ++ map EvValidatePermissions checks) /\
    (forall i c e,
       nth_error checks i = Some c ->
       ssarClient bv (t4 ++ map EvValidatePermissions (firstn i checks)) c = Some e ->
       In e failed) /\
    (failed <> [] ->
     out = Ret (Some (joinError
                  (fmtError "potential privilege escalation, not permitted to %q %s"
                     [ArgQ verb;
                      ArgS {| schema.gvk_Group := ctlres.APIGroup res;
                              schema.gvk_Version := ctlres.APIVersion res;
                              schema.gvk_Kind := ctlres.Kind res |}]
                   :: failed)))).
Proof.
  intros (Hverb & Hmap & Hbind & Hdirect & Hrules) Hatomic t4 checks failed.
  eexists. split; [|split].
  - exact (Validate_escalation BreakdownRule bv res t verb mapping Hverb Hmap
             rules Hbind Hdirect Hrules Hatomic).
  - intros i c e Hi Hans. apply in_failures.
    apply nth_error_In with (n := i).
    rewrite (answers_nth bv checks t4 i c Hi). now rewrite Hans.
  - fold checks t4 failed. intros Hfailed.
    destruct failed; [contradiction | reflexivity].
Qed.

Lemma escalation_collects_every_failure_witness :
  let bv := fake.validator [("create", "rolebindings"); ("get", "pods")]
              [fake.pod_reader] in
  let t4 := after_resolution fake.rolebindings fake.read_pods "create" [] in
  let checks := map (subruleAttrs fake.read_pods)
                  (flat_map validation.BreakdownRule [fake.pod_reader]) in
  let failed := failures (answers bv t4 checks) in
  exists out,
    Validate validation.BreakdownRule bv fake.read_pods "create" [] =
      (out, t4 ++ map EvValidatePermissions checks) /\
    (forall i c e,
       nth_error checks i = Some c ->
       ssarClient bv (t4 ++ map EvValidatePermissions (firstn i checks)) c = Some e ->
       In e failed) /\
    (failed <> [] ->
     out = Ret (Some (joinError
                  (fmtError "potential privilege escalation, not permitted to %q %s"
                     [ArgQ "create";
                      ArgS {| schema.gvk_Group := "rbac.authorization.k8s.io";
                              schema.gvk_Version := "v1";
                              schema.gvk_Kind := "RoleBinding" |}]
                   :: failed)))).
Proof.
  apply (escalation_collects_every_failure validation.BreakdownRule
           (fake.validator [("create", "rolebindings"); ("get", "pods")]
              [fake.pod_reader])
           fake.rolebindings fake.read_pods "create" [] [fake.pod_reader]).
  - unfold escalation_path. repeat split; try reflexivity.
    + left. reflexivity.
    + discriminate.
  - vm_compute. repeat constructor; discriminate.
Defined.

(** The principal may create the binding and get pods, the role grants get
    and list on pods and services: the three missing grants are reported
    together, in the order of the decomposition. *)
Example missing_grants_reported_together :
  fst (Validate validation.BreakdownRule
         (fake.validator [("create", "rolebindings"); ("get", "pods")]
            [fake.pod_reader])
         fake.read_pods "create" []) =
  Ret (Some (PrivilegeEscalationError fake.read_pods "create"
         [PermissionDeniedError
            (subruleAttrs fake.read_pods (atom EmptyString "pods" "list" []));
          PermissionDeniedError
            (subruleAttrs fake.read_pods (atom EmptyString "services" "get" []));
          PermissionDeniedError
            (subruleAttrs fake.read_pods (atom EmptyString "services" "list" []))])).
Proof. reflexivity. Qed.

(** C5: on the escalation path, when every check of a subrule is granted,
    [Validate] returns nil. *)
Theorem escalation_success BreakdownRule bv mapping res verb t rules :
  escalation_path bv mapping res verb t rules ->
  Forall atomic (flat_map BreakdownRule rules) ->
  Forall (fun answer => answer = None)
    (answers bv (after_resolution mapping res verb t)
       (map (subruleAttrs res) (flat_map BreakdownRule rules))) ->
  Validate BreakdownRule bv res verb t =
  (Ret None,
   after_resolution mapping res verb t
     ++ map EvValidatePermissions
          (map (subruleAttrs res) (flat_map BreakdownRule rules))).
Proof.
  intros (Hverb & Hmap & Hbind & Hdirect & Hrules) Hatomic Hgranted.
  rewrite (Validate_escalation BreakdownRule bv res t verb mapping Hverb Hmap
             rules Hbind Hdirect Hrules Hatomic).
  now rewrite (failures_all_granted _ Hgranted).
Qed.

Lemma escalation_success_witness :
  Validate validation.BreakdownRule
    (fake.validator [("create", "rolebindings"); ("get", "pods"); ("list", "pods");
                     ("get", "services"); ("list", "services")] [fake.pod_reader])
    fake.read_pods "create" [] =
  (Ret None,
   after_resolution fake.rolebindings fake.read_pods "create" []
     ++ map EvValidatePermissions
          (map (subruleAttrs fake.read_pods)
             (flat_map validation.BreakdownRule [fake.pod_reader]))).
Proof.
  apply (escalation_success validation.BreakdownRule
           (fake.validator [("create", "rolebindings"); ("get", "pods");
                            ("list", "pods"); ("get", "services");
                            ("list", "services")] [fake.pod_reader])
           fake.rolebindings fake.read_pods "create" [] [fake.pod_reader]).
  - unfold escalation_path. repeat split; try reflexivity.
    + left. reflexivity.
    + discriminate.
  - vm_compute. repeat constructor; discriminate.
  - vm_compute. repeat constructor.
Defined.

(** C6: for a verb other than create and update, once the kind is mapped,
    the result of [Validate] is the answer to one check of that verb on the
    binding resource, unchanged; and, mapped or not, no call to the role
    resolver is among the calls [Validate] makes. *)
Theorem other_verb_is_direct_check BreakdownRule bv res verb t :
  verb <> "create" -> verb <> "update" ->
  (forall mapping,
     mapping_answer bv res t = inl mapping ->
     Validate BreakdownRule bv res verb t =
     (Ret (ssarClient bv (after_mapping res t) (bindingAttrs mapping res verb)),
      after_mapping res t ++ [EvValidatePermissions (bindingAttrs mapping res verb)])) /\
  (exists out d,
     Validate BreakdownRule bv res verb t = (out, t ++ d) /\
     existsb is_role_resolution d = false).
Proof.
  intros Hc Hu. split.
  - intros mapping Hmap. now apply Validate_other_verb.
  - destruct (mapping_answer bv res t) as [mapping|err] eqn:Hmap.
    + rewrite (Validate_other_verb BreakdownRule bv res t verb mapping Hc Hu Hmap).
      unfold after_mapping. rewrite <- app_assoc.
      eexists. eexists. split; reflexivity.
    + rewrite (Validate_unmapped BreakdownRule bv res t verb err Hmap).
      unfold after_mapping.
      eexists. eexists. split; reflexivity.
Qed.

Lemma other_verb_is_direct_check_witness :
  let bv := fake.validator [("get", "rolebindings")] [fake.pod_reader] in
  Validate validation.BreakdownRule bv fake.read_pods "delete" [] =
  (Ret (Some (PermissionDeniedError
                (bindingAttrs fake.rolebindings fake.read_pods "delete"))),
   after_mapping fake.read_pods []
     ++ [EvValidatePermissions
           (bindingAttrs fake.rolebindings fake.read_pods "delete")]) /\
  (exists out d,
     Validate validation.BreakdownRule bv fake.read_pods "delete" [] = (out, [] ++ d) /\
     existsb is_role_resolution d = false).
Proof.
  destruct (other_verb_is_direct_check validation.BreakdownRule
              (fake.validator [("get", "rolebindings")] [fake.pod_reader])
              fake.read_pods "delete" []) as [Hdirect Hresolver].
  - discriminate.
  - discriminate.
  - split; [|exact Hresolver]. apply (Hdirect fake.rolebindings). reflexivity.
Defined.

(** C7: the decomposition is the cross-product of API groups, resource
    types and verbs, every subrule naming exactly one of each; get and
    list on pods and services of the core group give the four atomic
    rules (pods, get), (pods, list), (services, get), (services, list). *)
Theorem breakdown_is_cross_product :
  (forall rule subrule,
     In subrule (validation.BreakdownRule rule) <->
     exists group resource verb,
       In group (rbacv1.APIGroups rule) /\
       In resource (rbacv1.Resources rule) /\
       In verb (rbacv1.Verbs rule) /\
       subrule = atom group resource verb
                   (firstn 1 (rbacv1.ResourceNames rule))) /\
  (forall rule,
     length (validation.BreakdownRule rule) =
     length (rbacv1.APIGroups rule) * length (rbacv1.Resources rule)
       * length (rbacv1.Verbs rule)) /\
  (forall rule, Forall single_valued (validation.BreakdownRule rule)) /\
  validation.BreakdownRule fake.pod_reader =
    [atom EmptyString "pods" "get" [];
     atom EmptyString "pods" "list" [];
     atom EmptyString "services" "get" [];
     atom EmptyString "services" "list" []].
Proof.
  assert (Hin : forall rule subrule,
     In subrule (validation.BreakdownRule rule) <->
     exists group resource verb,
       In group (rbacv1.APIGroups rule) /\
       In resource (rbacv1.Resources rule) /\
       In verb (rbacv1.Verbs rule) /\
       subrule = atom group resource verb
                   (firstn 1 (rbacv1.ResourceNames rule))).
  { intros rule subrule. unfold validation.BreakdownRule. rewrite in_flat_map. split.
    - intros (group & Hg & H). apply in_flat_map in H as (resource & Hr & H).
      apply in_map_iff in H as (verb & <- & Hv).
      exists group, resource, verb. repeat split; assumption.
    - intros (group & resource & verb & Hg & Hr & Hv & ->).
      exists group. split; [assumption|]. apply in_flat_map.
      exists resource. split; [assumption|]. apply in_map_iff.
      exists verb. split; [reflexivity | assumption]. }
  split; [exact Hin | split; [|split]].
  - intros rule. unfold validation.BreakdownRule.
    induction (rbacv1.APIGroups rule) as [|g gs IHg]; [reflexivity|].
    cbn [flat_map length]. rewrite length_app, IHg. clear IHg.
    replace (length (flat_map _ (rbacv1.Resources rule)))
      with (length (rbacv1.Resources rule) * length (rbacv1.Verbs rule)); [lia|].
    induction (rbacv1.Resources rule) as [|r rs IHr]; [reflexivity|].
    cbn [flat_map length]. rewrite length_app, length_map, <- IHr. lia.
  - intros rule. apply Forall_forall. intros subrule Hsub.
    apply Hin in Hsub as (group & resource & verb & _ & _ & _ & ->).
    repeat split.
  - reflexivity.
Qed.

(** C8: on the escalation path, the check made for a subrule asks about the
    first resource name of the subrule when it has resource names, and
    about the empty name when it has none. *)
Theorem escalation_check_uses_first_name BreakdownRule bv mapping res verb t rules :
  escalation_path bv mapping res verb t rules ->
  Forall atomic (flat_map BreakdownRule rules) ->
  exists out checks,
    Validate BreakdownRule bv res verb t =
      (out, after_resolution mapping res verb t ++ map EvValidatePermissions checks) /\
    Forall2 (fun subrule check =>
               authv1.Name check =
               match rbacv1.ResourceNames subrule with
               | first :: _ => first
               | [] => EmptyString
               end)
      (flat_map BreakdownRule rules) checks.
Proof.
  intros (Hverb & Hmap & Hbind & Hdirect & Hrules) Hatomic.
  eexists. exists (map (subruleAttrs res) (flat_map BreakdownRule rules)). split.
  - exact (Validate_escalation BreakdownRule bv res t verb mapping Hverb Hmap
             rules Hbind Hdirect Hrules Hatomic).
  - clear. induction (flat_map BreakdownRule rules) as [|subrule subrules IH];
      constructor; [reflexivity | exact IH].
Qed.

Lemma escalation_check_uses_first_name_witness :
  let bv := fake.validator [("create", "rolebindings")] [fake.named_reader] in
  exists out checks,
    Validate (fun rule => [rule]) bv fake.read_pods "create" [] =
      (out, after_resolution fake.rolebindings fake.read_pods "create" []
              ++ map EvValidatePermissions checks) /\
    Forall2 (fun subrule check =>
               authv1.Name check =
               match rbacv1.ResourceNames subrule with
               | first :: _ => first
               | [] => EmptyString
               end)
      (flat_map (fun rule => [rule]) [fake.named_reader]) checks.
Proof.
  apply (escalation_check_uses_first_name (fun rule => [rule])
           (fake.validator [("create", "rolebindings")] [fake.named_reader])
           fake.rolebindings fake.read_pods "create" [] [fake.named_reader]).
  - unfold escalation_path. repeat split; try reflexivity.
    + left. reflexivity.
    + discriminate.
  - vm_compute. repeat constructor; discriminate.
Defined.

(** The check of a subrule with the names web and db asks about web. *)
Example named_subrule_checked_by_first_name :
  Validate (fun rule => [rule])
    (fake.validator [("create", "rolebindings")] [fake.named_reader])
    fake.read_pods "create" [] =
  (Ret (Some (PrivilegeEscalationError fake.read_pods "create"
                [PermissionDeniedError
                   {| authv1.Group := EmptyString; authv1.Version := EmptyString;
                      authv1.Resource := "configmaps"; authv1.Namespace := "default";
                      authv1.Name := "web"; authv1.Verb := "get" |}])),
   after_resolution fake.rolebindings fake.read_pods "create" []
     ++ [EvValidatePermissions
           {| authv1.Group := EmptyString; authv1.Version := EmptyString;
              authv1.Resource := "configmaps"; authv1.Namespace := "default";
              authv1.Name := "web"; authv1.Verb := "get" |}]).
Proof. reflexivity. Qed.

(** C9: on the escalation path, when the role cannot be resolved,
    [Validate] returns the resolver's error wrapped in "fetching rules for
    binding"; the resolution is the last call, so no subrule is checked,
    and the error is no privilege escalation error. *)
Theorem resolution_failure_wrapped BreakdownRule bv mapping res verb t err :
  verb = "create" \/ verb = "update" ->
  mapping_answer bv res t = inl mapping ->
  bind_answer bv mapping res t <> None ->
  direct_answer bv mapping res verb t = None ->
  resolution_answer bv mapping res verb t = inr err ->
  Validate BreakdownRule bv res verb t =
  (Ret (Some (wrapError "fetching rules for binding: %w" err)),
   t ++ [EvRESTMapping (ctlres.GroupKind res)
           (schema.gv_Version (ctlres.GroupVersion res));
         EvValidatePermissions (bindingAttrs mapping res "bind");
         EvValidatePermissions (bindingAttrs mapping res verb);
         EvRulesForBinding res]) /\
  is_PrivilegeEscalationError (wrapError "fetching rules for binding: %w" err) = false.
Proof.
  intros Hverb Hmap Hbind Hdirect Hrules. split; [|reflexivity].
  rewrite (Validate_unresolved BreakdownRule bv res t verb mapping Hverb Hmap
             err Hbind Hdirect Hrules).
  unfold after_resolution, after_direct_check, after_bind_check, after_mapping.
  now rewrite <- !app_assoc.
Qed.

Lemma resolution_failure_wrapped_witness :
  let res := fake.binding "RoleBinding" "missing" in
  let err := NotFoundError "roles.rbac.authorization.k8s.io not found" in
  Validate validation.BreakdownRule
    (fake.validator [("create", "rolebindings")] [fake.pod_reader]) res "create" [] =
  (Ret (Some (wrapError "fetching rules for binding: %w" err)),
   [] ++ [EvRESTMapping (ctlres.GroupKind res)
            (schema.gv_Version (ctlres.GroupVersion res));
          EvValidatePermissions (bindingAttrs fake.rolebindings res "bind");
          EvValidatePermissions (bindingAttrs fake.rolebindings res "create");
          EvRulesForBinding res]) /\
  is_PrivilegeEscalationError (wrapError "fetching rules for binding: %w" err) = false.
Proof.
  apply (resolution_failure_wrapped validation.BreakdownRule
           (fake.validator [("create", "rolebindings")] [fake.pod_reader])
           fake.rolebindings (fake.binding "RoleBinding" "missing") "create" []).
  - left. reflexivity.
  - reflexivity.
  - discriminate.
  - reflexivity.
  - reflexivity.
Defined.

(** C10: for every verb the mapping of the kind is the first call
    [Validate] makes, and when it fails [Validate] returns the mapper's
    error with no other call made, so before any permission check. *)
Theorem mapping_comes_first BreakdownRule bv res verb t :
  (exists out d,
     Validate BreakdownRule bv res verb t =
     (out, t ++ EvRESTMapping (ctlres.GroupKind res)
                  (schema.gv_Version (ctlres.GroupVersion res)) :: d)) /\
  (forall err,
     mapping_answer bv res t = inr err ->
     Validate BreakdownRule bv res verb t =
     (Ret (Some err),
      t ++ [EvRESTMapping (ctlres.GroupKind res)
              (schema.gv_Version (ctlres.GroupVersion res))])).
Proof.
  split; [|intros err Hmap; now apply Validate_unmapped].
  destruct (mapping_answer bv res t) as [mapping|err] eqn:Hmap.
  2:{ rewrite (Validate_unmapped BreakdownRule bv res t verb err Hmap).
      eexists. eexists. reflexivity. }
  assert (Hverb : (verb = "create" \/ verb = "update")
                  \/ (verb <> "create" /\ verb <> "update")).
  { destruct (String.eqb_spec verb "create"); [now left; left|].
    destruct (String.eqb_spec verb "update"); [now left; right|].
    now right. }
  destruct Hverb as [Hverb | [Hc Hu]].
  - destruct (bind_answer bv mapping res t) as [e|] eqn:Hbind.
    + destruct (Validate_reaches_direct_check BreakdownRule bv res t verb mapping
                  Hverb Hmap) as (out & d & ->); [now rewrite Hbind|].
      unfold after_direct_check, after_bind_check, after_mapping.
      rewrite <- !app_assoc. eexists. eexists. reflexivity.
    + rewrite (Validate_bind_granted BreakdownRule bv res t verb mapping
                 Hverb Hmap Hbind).
      unfold after_bind_check, after_mapping.
      rewrite <- !app_assoc. eexists. eexists. reflexivity.
  - rewrite (Validate_other_verb BreakdownRule bv res t verb mapping Hc Hu Hmap).
    unfold after_mapping.
    rewrite <- !app_assoc. eexists. eexists. reflexivity.
Qed.

Lemma mapping_comes_first_witness :
  let res := fake.binding "Gadget" "pod-reader" in
  Validate validation.BreakdownRule
    (fake.validator [("get", "rolebindings")] [fake.pod_reader]) res "get" [] =
  (Ret (Some (AddressingError "no matches for kind")),
   [] ++ [EvRESTMapping (ctlres.GroupKind res)
            (schema.gv_Version (ctlres.GroupVersion res))]).
Proof.
  apply (proj2 (mapping_comes_first validation.BreakdownRule
                  (fake.validator [("get", "rolebindings")] [fake.pod_reader])
                  (fake.binding "Gadget" "pod-reader") "get" [])).
  reflexivity.
Defined.

(** ** More on [Validate]: panics, call discipline, soundness *)

Lemma atomicb_spec subrule : atomicb subrule = true <-> atomic subrule.
Proof.
  unfold atomicb, atomic.
  destruct (rbacv1.APIGroups subrule), (rbacv1.Resources subrule),
    (rbacv1.Verbs subrule); cbn; split; try discriminate;
    try (intros (Hg & Hr & Hv); congruence);
    intros _; repeat split; discriminate.
Qed.

Lemma atomic_dec subrule : atomic subrule \/ ~ atomic subrule.
Proof.
  destruct (atomicb subrule) eqn:Hb.
  - left. now apply atomicb_spec.
  - right. intros H. apply atomicb_spec in H. congruence.
Qed.

(** A list of subrules is all atomic, or has a first subrule that is not. *)
Lemma first_incomplete_subrule (subrules : list rbacv1.PolicyRule) :
  Forall atomic subrules \/
  exists pre bad post,
    subrules = pre ++ bad :: post /\ Forall atomic pre /\ ~ atomic bad.
Proof.
  induction subrules as [|subrule subrules IH].
  - left. constructor.
  - destruct (atomic_dec subrule) as [Hsub | Hsub].
    + destruct IH as [Hall | (pre & bad & post & -> & Hpre & Hbad)].
      * left. now constructor.
      * right. exists (subrule :: pre), bad, post.
        repeat split; [now constructor | exact Hbad].
    + right. exists [], subrule, subrules. repeat split; [constructor | exact Hsub].
Qed.

Lemma failures_nil_all_granted (l : list (option error)) :
  failures l = [] -> Forall (fun a => a = None) l.
Proof.
  induction l as [|a l IH]; intros H; [constructor|].
  destruct a as [e|]; [discriminate|].
  constructor; [reflexivity | now apply IH].
Qed.

(** The answers to a series of checks depend on the service only through
    its answers at histories at least as long as the starting one. *)
Lemma answers_ext bv1 bv2 checks : forall t,
  (forall t' a, length t <= length t' -> ssarClient bv1 t' a = ssarClient bv2 t' a) ->
  answers bv1 t checks = answers bv2 t checks.
Proof.
  induction checks as [|c checks IH]; intros t Hagree; cbn; [reflexivity|].
  rewrite (Hagree t c) by lia. f_equal. apply IH.
  intros t' a Hlen. apply Hagree. rewrite length_app in Hlen. cbn in Hlen. lia.
Qed.

(** A loop whose body panics at the first element that is not atomic. *)
Lemma for_range_panics (bv : BindingValidator) (res : ctlres.Resource)
    (inner : rbacv1.PolicyRule -> list error -> M (list error))
    (pre post : list rbacv1.PolicyRule) (bad : rbacv1.PolicyRule) :
  (forall subrule errs t, atomic subrule ->
     inner subrule errs t =
     (Ret (errs ++ failures [ssarClient bv t (subruleAttrs res subrule)]),
      t ++ [EvValidatePermissions (subruleAttrs res subrule)])) ->
  (forall subrule errs t, ~ atomic subrule ->
     inner subrule errs t = (Panic index_out_of_range, t)) ->
  Forall atomic pre -> ~ atomic bad ->
  forall errs t,
    for_range (pre ++ bad :: post) inner errs t =
    (Panic index_out_of_range,
     t ++ map EvValidatePermissions (map (subruleAttrs res) pre)).
Proof.
  intros Hok Hpanic Hpre Hbad errs t.
  rewrite for_range_app. unfold bind at 1.
  rewrite (for_range_checks bv (subruleAttrs res)).
  - cbn [for_range]. unfold bind. now rewrite Hpanic.
  - intros subrule errs' t' Hin. apply Hok.
    exact (proj1 (Forall_forall _ _) Hpre subrule Hin).
Qed.

Section Runs.

Variable BreakdownRule : rbacv1.PolicyRule -> list rbacv1.PolicyRule.
Variable bv : BindingValidator.
Variable res : ctlres.Resource.
Variable verb : string.
Variable t : Trace.

(** [Validate] along the escalation path, as the run of its loops over the
    subrules followed by the decision on the collected errors. *)
Lemma Validate_loop_form mapping rules :
  escalation_path bv mapping res verb t rules ->
  exists inner : rbacv1.PolicyRule -> list error -> M (list error),
    (forall subrule errs t', atomic subrule ->
       inner subrule errs t' =
       (Ret (errs ++ failures [ssarClient bv t' (subruleAttrs res subrule)]),
        t' ++ [EvValidatePermissions (subruleAttrs res subrule)])) /\
    (forall subrule errs t', ~ atomic subrule ->
       inner subrule errs t' = (Panic index_out_of_range, t')) /\
    Validate BreakdownRule bv res verb t =
    match for_range (flat_map BreakdownRule rules) inner []
            (after_resolution mapping res verb t) with
    | (Ret errs, t') =>
      (Ret (match errs with
            | [] => None
            | _ :: _ => Some (PrivilegeEscalationError res verb errs)
            end), t')
    | (Panic msg, t') => (Panic msg, t')
    end.
Proof.
  intros (Hverb & Hmap & Hbind & Hdirect & Hrules).
  unfold mapping_answer, bind_answer, direct_answer, resolution_answer in *.
  unfold Validate. unfold bind at 1. unfold RESTMapping, call at 1.
  rewrite Hmap, (escalation_verb_test verb Hverb).
  unfold bind at 1. unfold ValidatePermissions at 1. unfold call at 1.
  fold (after_mapping res t). fold (bindingAttrs mapping res "bind").
  destruct (ssarClient bv _ _) in Hbind |- *; [|contradiction].
  unfold bind at 1. unfold ValidatePermissions at 1. unfold call at 1.
  fold (after_bind_check mapping res t). fold (bindingAttrs mapping res verb).
  rewrite Hdirect.
  unfold bind at 1. unfold RulesForBinding, call at 1.
  fold (after_direct_check mapping res verb t). rewrite Hrules.
  fold (after_resolution mapping res verb t).
  unfold bind at 1. rewrite for_range_nested.
  match goal with
  | |- context [for_range (flat_map BreakdownRule rules) ?body [] _] =>
    exists body
  end.
  split; [|split].
  - intros subrule errs t' Hsub. now apply subrule_check.
  - intros subrule errs t' Hsub.
    assert (Hb : atomicb subrule = false).
    { destruct (atomicb subrule) eqn:Hb; [|reflexivity].
      apply atomicb_spec in Hb. contradiction. }
    clear Hsub. unfold atomicb in Hb.
    destruct subrule as [verbs groups resources names]; cbn in *.
    destruct names, groups, resources, verbs; try discriminate; reflexivity.
  - destruct (for_range _ _ [] _) as [[errs|msg] t']; [|reflexivity].
    destruct errs as [|e0 errs]; [reflexivity|].
    cbn [length Nat.ltb Nat.leb]. unfold ret.
    now rewrite errors_Join_non_nil.
Qed.

End Runs.

Section Cases.

Variable BreakdownRule : rbacv1.PolicyRule -> list rbacv1.PolicyRule.
Variable bv : BindingValidator.
Variable res : ctlres.Resource.
Variable verb : string.
Variable t : Trace.

Lemma verb_cases :
  (verb = "create" \/ verb = "update") \/ (verb <> "create" /\ verb <> "update").
Proof.
  destruct (String.eqb_spec verb "create"); [now left; left|].
  destruct (String.eqb_spec verb "update"); [now left; right|].
  now right.
Qed.

(** The run of the loops when a subrule is incomplete. *)
Lemma Validate_incomplete mapping rules pre bad post :
  escalation_path bv mapping res verb t rules ->
  flat_map BreakdownRule rules = pre ++ bad :: post ->
  Forall atomic pre -> ~ atomic bad ->
  Validate BreakdownRule bv res verb t =
  (Panic index_out_of_range,
   after_resolution mapping res verb t
     ++ map EvValidatePermissions (map (subruleAttrs res) pre)).
Proof.
  intros Hpath Hsplit Hpre Hbad.
  destruct (Validate_loop_form BreakdownRule bv res verb t mapping rules Hpath)
    as (inner & Hok & Hpanic & ->).
  rewrite Hsplit.
  now rewrite (for_range_panics bv res inner pre post bad Hok Hpanic Hpre Hbad).
Qed.

(** Every run of [Validate] is one of seven. *)
Lemma Validate_cases :
  (exists err,
     mapping_answer bv res t = inr err /\
     Validate BreakdownRule bv res verb t = (Ret (Some err), after_mapping res t)) \/
  (exists mapping,
     mapping_answer bv res t = inl mapping /\
     ((verb <> "create" /\ verb <> "update" /\
       Validate BreakdownRule bv res verb t =
       (Ret (ssarClient bv (after_mapping res t) (bindingAttrs mapping res verb)),
        after_mapping res t
          ++ [EvValidatePermissions (bindingAttrs mapping res verb)])) \/
      ((verb = "create" \/ verb = "update") /\
       ((bind_answer bv mapping res t = None /\
         Validate BreakdownRule bv res verb t =
         (Ret None, after_bind_check mapping res t)) \/
        (bind_answer bv mapping res t <> None /\
         ((exists err,
             direct_answer bv mapping res verb t = Some err /\
             Validate BreakdownRule bv res verb t =
             (Ret (Some err), after_direct_check mapping res verb t)) \/
          (direct_answer bv mapping res verb t = None /\
           ((exists err,
               resolution_answer bv mapping res verb t = inr err /\
               Validate BreakdownRule bv res verb t =
               (Ret (Some (wrapError "fetching rules for binding: %w" err)),
                after_resolution mapping res verb t)) \/
            (exists rules,
               escalation_path bv mapping res verb t rules /\
               ((Forall atomic (flat_map BreakdownRule rules) /\
                 Validate BreakdownRule bv res verb t =
                 (Ret (match failures
                               (answers bv (after_resolution mapping res verb t)
                                  (map (subruleAttrs res)
                                     (flat_map BreakdownRule rules))) with
                       | [] => None
                       | e :: es =>
                         Some (PrivilegeEscalationError res verb (e :: es))
                       end),
                  after_resolution mapping res verb t
                    ++ map EvValidatePermissions
                         (map (subruleAttrs res)
                            (flat_map BreakdownRule rules)))) \/
                (exists pre bad post,
                   flat_map BreakdownRule rules = pre ++ bad :: post /\
                   Forall atomic pre /\ ~ atomic bad /\
                   Validate BreakdownRule bv res verb t =
                   (Panic index_out_of_range,
                    after_resolution mapping res verb t
                      ++ map EvValidatePermissions
                           (map (subruleAttrs res) pre))))))))))))).
Proof.
  destruct (mapping_answer bv res t) as [mapping|err] eqn:Hmap.
  2:{ left. exists err. split; [reflexivity|]. now apply Validate_unmapped. }
  right. exists mapping. split; [reflexivity|].
  destruct verb_cases as [Hverb | [Hc Hu]].
  2:{ left. repeat split; trivial. now apply Validate_other_verb. }
  right. split; [exact Hverb|].
  destruct (bind_answer bv mapping res t) as [e1|] eqn:Hbind.
  2:{ left. split; [reflexivity|]. now apply Validate_bind_granted. }
  right. split; [discriminate|].
  assert (Hfail : bind_answer bv mapping res t <> None) by now rewrite Hbind.
  destruct (direct_answer bv mapping res verb t) as [e2|] eqn:Hdirect.
  { left. exists e2. split; [reflexivity|]. now apply Validate_direct_refused. }
  right. split; [reflexivity|].
  destruct (resolution_answer bv mapping res verb t) as [rules|e3] eqn:Hrules.
  2:{ left. exists e3. split; [reflexivity|]. now apply Validate_unresolved. }
  right. exists rules.
  assert (Hpath : escalation_path bv mapping res verb t rules).
  { unfold escalation_path. repeat split; assumption. }
  split; [exact Hpath|].
  destruct (first_incomplete_subrule (flat_map BreakdownRule rules))
    as [Hall | (pre & bad & post & Hsplit & Hpre & Hbad)].
  - left. split; [exact Hall|].
    rewrite (Validate_escalation BreakdownRule bv res t verb mapping Hverb Hmap
               rules Hfail Hdirect Hrules Hall).
    destruct (failures _); reflexivity.
  - right. exists pre, bad, post. repeat split; trivial.
    now apply (Validate_incomplete mapping rules pre bad post).
Qed.

End Cases.

Lemma filter_checks_nil (p : Event -> bool) (checks : list authv1.ResourceAttributes) :
  (forall attrs, p (EvValidatePermissions attrs) = false) ->
  filter p (map EvValidatePermissions checks) = [].
Proof.
  intros Hp. induction checks as [|c checks IH]; cbn; [reflexivity|].
  now rewrite Hp.
Qed.

Lemma incomplete_not_all_atomic (pre post : list rbacv1.PolicyRule) bad :
  ~ atomic bad -> ~ Forall atomic (pre ++ bad :: post).
Proof.
  intros Hbad Hall. apply Forall_app in Hall as [_ Hall].
  inversion Hall. contradiction.
Qed.

(** X1: on the escalation path, when the decomposition holds a subrule
    that lacks a group, a resource type or a verb, [Validate] panics with
    an index out of range at the first such subrule: the subrules before it
    have been checked, none after it is, and the failures collected so far
    are not reported. *)
Theorem panic_at_first_incomplete_subrule
    BreakdownRule bv mapping res verb t rules pre bad post :
  escalation_path bv mapping res verb t rules ->
  flat_map BreakdownRule rules = pre ++ bad :: post ->
  Forall atomic pre ->
  ~ atomic bad ->
  Validate BreakdownRule bv res verb t =
  (Panic "runtime error: index out of range [0] with length 0",
   after_resolution mapping res verb t
     ++ map EvValidatePermissions (map (subruleAttrs res) pre)).
Proof.
  intros Hpath Hsplit Hpre Hbad.
  exact (Validate_incomplete BreakdownRule bv res verb t mapping rules
           pre bad post Hpath Hsplit Hpre Hbad).
Qed.

Lemma panic_at_first_incomplete_subrule_witness :
  let groupless := {| rbacv1.Verbs := ["get"]; rbacv1.APIGroups := [];
                      rbacv1.Resources := ["pods"]; rbacv1.ResourceNames := [] |} in
  let rules := [atom EmptyString "secrets" "get" []; groupless; fake.pod_reader] in
  Validate (fun rule => [rule])
    (fake.validator [("create", "rolebindings")] rules) fake.read_pods "create" [] =
  (Panic "runtime error: index out of range [0] with length 0",
   after_resolution fake.rolebindings fake.read_pods "create" []
     ++ map EvValidatePermissions
          (map (subruleAttrs fake.read_pods) [atom EmptyString "secrets" "get" []])).
Proof.
  cbv zeta.
  apply (panic_at_first_incomplete_subrule (fun rule => [rule]) _
           fake.rolebindings fake.read_pods "create" []
           [atom EmptyString "secrets" "get" [];
            {| rbacv1.Verbs := ["get"]; rbacv1.APIGroups := [];
               rbacv1.Resources := ["pods"]; rbacv1.ResourceNames := [] |};
            fake.pod_reader]
           [atom EmptyString "secrets" "get" []]
           {| rbacv1.Verbs := ["get"]; rbacv1.APIGroups := [];
              rbacv1.Resources := ["pods"]; rbacv1.ResourceNames := [] |}
           [fake.pod_reader]).
  - unfold escalation_path. repeat split; try reflexivity.
    + left. reflexivity.
    + discriminate.
  - reflexivity.
  - repeat constructor; discriminate.
  - intros (Hgroups & _). apply Hgroups. reflexivity.
Defined.

(** X2: [Validate] panics in no other situation: a run that panics is on
    the escalation path (create or update, kind mapped, "bind" refused,
    verb granted, role resolved), some subrule of the role lacks a group, a
    resource type or a verb, and the panic is the index out of range. *)
Theorem panic_only_on_incomplete_subrule BreakdownRule bv res verb t msg t' :
  Validate BreakdownRule bv res verb t = (Panic msg, t') ->
  msg = "runtime error: index out of range [0] with length 0" /\
  exists mapping rules,
    escalation_path bv mapping res verb t rules /\
    ~ Forall atomic (flat_map BreakdownRule rules).
Proof.
  intros Hrun.
  destruct (Validate_cases BreakdownRule bv res verb t)
    as [(err & _ & H)
       | (mapping & Hmap &
          [(_ & _ & H)
          | (Hverb &
             [(_ & H)
             | (Hbind &
                [(err & _ & H)
                | (Hdirect &
                   [(err & _ & H)
                   | (rules & Hpath &
                      [(_ & H)
                      | (pre & bad & post & Hsplit & Hpre & Hbad & H)])])])])])];
    rewrite H in Hrun; try discriminate.
  injection Hrun as <- _. split; [reflexivity|].
  exists mapping, rules. split; [exact Hpath|].
  rewrite Hsplit. now apply incomplete_not_all_atomic.
Qed.

Lemma panic_only_on_incomplete_subrule_witness :
  let rules := [{| rbacv1.Verbs := ["get"]; rbacv1.APIGroups := [];
                   rbacv1.Resources := ["pods"]; rbacv1.ResourceNames := [] |}] in
  let bv := fake.validator [("create", "rolebindings")] rules in
  index_out_of_range = "runtime error: index out of range [0] with length 0" /\
  exists mapping rules',
    escalation_path bv mapping fake.read_pods "create" [] rules' /\
    ~ Forall atomic (flat_map (fun rule => [rule]) rules').
Proof.
  cbv zeta.
  apply (panic_only_on_incomplete_subrule (fun rule => [rule])
           (fake.validator [("create", "rolebindings")]
              [{| rbacv1.Verbs := ["get"]; rbacv1.APIGroups := [];
                  rbacv1.Resources := ["pods"]; rbacv1.ResourceNames := [] |}])
           fake.read_pods "create" [] index_out_of_range
           (after_resolution fake.rolebindings fake.read_pods "create" [])).
  reflexivity.
Defined.

(** X3: [Validate] authorizes a create or an update only when the kind is
    mapped and either "bind" is granted, or the verb is granted, the role
    resolves, and every check of every subrule of the role is granted. *)
Theorem authorized_only_if_entitled BreakdownRule bv res verb t t' :
  verb = "create" \/ verb = "update" ->
  Validate BreakdownRule bv res verb t = (Ret None, t') ->
  exists mapping,
    mapping_answer bv res t = inl mapping /\
    (bind_answer bv mapping res t = None \/
     (direct_answer bv mapping res verb t = None /\
      exists rules,
        resolution_answer bv mapping res verb t = inl rules /\
        Forall (fun answer => answer = None)
          (answers bv (after_resolution mapping res verb t)
             (map (subruleAttrs res) (flat_map BreakdownRule rules))))).
Proof.
  intros Hverb Hrun.
  destruct (Validate_cases BreakdownRule bv res verb t)
    as [(err & _ & H)
       | (mapping & Hmap &
          [(Hc & Hu & H)
          | (_ &
             [(Hbind & H)
             | (Hbind &
                [(err & _ & H)
                | (Hdirect &
                   [(err & _ & H)
                   | (rules & Hpath &
                      [(_ & H)
                      | (pre & bad & post & _ & _ & _ & H)])])])])])];
    rewrite H in Hrun; try discriminate.
  - destruct Hverb; contradiction.
  - exists mapping. split; [exact Hmap|]. now left.
  - exists mapping. split; [exact Hmap|]. right. split; [exact Hdirect|].
    exists rules. split; [apply Hpath|].
    apply failures_nil_all_granted.
    destruct (failures _); [reflexivity | discriminate].
Qed.

Lemma authorized_only_if_entitled_witness :
  let bv := fake.validator
              [("create", "rolebindings"); ("get", "pods"); ("list", "pods");
               ("get", "services"); ("list", "services")] [fake.pod_reader] in
  exists mapping,
    mapping_answer bv fake.read_pods [] = inl mapping /\
    (bind_answer bv mapping fake.read_pods [] = None \/
     (direct_answer bv mapping fake.read_pods "create" [] = None /\
      exists rules,
        resolution_answer bv mapping fake.read_pods "create" [] = inl rules /\
        Forall (fun answer => answer = None)
          (answers bv (after_resolution mapping fake.read_pods "create" [])
             (map (subruleAttrs fake.read_pods)
                (flat_map validation.BreakdownRule rules))))).
Proof.
  cbv zeta.
  apply (authorized_only_if_entitled validation.BreakdownRule
           (fake.validator
              [("create", "rolebindings"); ("get", "pods"); ("list", "pods");
               ("get", "services"); ("list", "services")] [fake.pod_reader])
           fake.read_pods "create" []
           (after_resolution fake.rolebindings fake.read_pods "create" []
              ++ map EvValidatePermissions
                   (map (subruleAttrs fake.read_pods)
                      (flat_map validation.BreakdownRule [fake.pod_reader])))).
  - left. reflexivity.
  - reflexivity.
Defined.

(** X4: whatever its inputs and however it ends, [Validate] keeps the
    history it started with, calls the REST mapper exactly once and the role
    resolver at most once; for a verb other than create and update it makes
    at most one permission check. *)
Theorem Validate_call_discipline BreakdownRule bv res verb t :
  exists out d,
    Validate BreakdownRule bv res verb t = (out, t ++ d) /\
    length (filter is_mapping d) = 1 /\
    length (filter is_role_resolution d) <= 1 /\
    (verb <> "create" -> verb <> "update" -> length (filter is_check d) <= 1).
Proof.
  assert (Hm : forall checks,
            filter is_mapping (map EvValidatePermissions checks) = [])
    by (intros; now apply filter_checks_nil).
  assert (Hr : forall checks,
            filter is_role_resolution (map EvValidatePermissions checks) = [])
    by (intros; now apply filter_checks_nil).
  destruct (Validate_cases BreakdownRule bv res verb t)
    as [(err & _ & H)
       | (mapping & Hmap &
          [(Hc & Hu & H)
          | (Hverb &
             [(Hbind & H)
             | (Hbind &
                [(err & _ & H)
                | (Hdirect &
                   [(err & _ & H)
                   | (rules & Hpath &
                      [(_ & H)
                      | (pre & bad & post & _ & _ & _ & H)])])])])])];
    rewrite H;
    unfold after_resolution, after_direct_check, after_bind_check, after_mapping;
    rewrite <- ?app_assoc; eexists; eexists; (split; [reflexivity|]);
    cbn [app filter is_mapping is_role_resolution is_check length];
    rewrite ?Hm, ?Hr; cbn [length];
    repeat split; try lia;
    intros Hc' Hu'; destruct Hverb; contradiction.
Qed.

(** X5: on the escalation path, a role whose rules break down into no
    subrule at all (no rules, or rules without verbs, say) is authorized
    without a single further check. *)
Theorem role_without_subrules_authorized BreakdownRule bv mapping res verb t rules :
  escalation_path bv mapping res verb t rules ->
  flat_map BreakdownRule rules = [] ->
  Validate BreakdownRule bv res verb t =
  (Ret None, after_resolution mapping res verb t).
Proof.
  intros (Hverb & Hmap & Hbind & Hdirect & Hrules) Hnone.
  rewrite (Validate_escalation BreakdownRule bv res t verb mapping Hverb Hmap
             rules Hbind Hdirect Hrules); rewrite Hnone; [|constructor].
  cbn. now rewrite app_nil_r.
Qed.

Lemma role_without_subrules_authorized_witness :
  Validate validation.BreakdownRule
    (fake.validator [("create", "rolebindings")] [verbless])
    fake.read_pods "create" [] =
  (Ret None, after_resolution fake.rolebindings fake.read_pods "create" []).
Proof.
  apply (role_without_subrules_authorized validation.BreakdownRule
           (fake.validator [("create", "rolebindings")] [verbless])
           fake.rolebindings fake.read_pods "create" [] [verbless]).
  - unfold escalation_path. repeat split; try reflexivity.
    + left. reflexivity.
    + discriminate.
  - reflexivity.
Defined.

(** X6: on the escalation path, whether the run ends normally or panics,
    everything [Validate] does after resolving the role is permission
    checks, and each of them is made in the namespace of the binding and
    names no API version. *)
Theorem escalation_checks_in_binding_namespace
    BreakdownRule bv mapping res verb t rules :
  escalation_path bv mapping res verb t rules ->
  exists out checks,
    Validate BreakdownRule bv res verb t =
      (out, after_resolution mapping res verb t
              ++ map EvValidatePermissions checks) /\
    Forall (fun check =>
              authv1.Namespace check = ctlres.Namespace res /\
              authv1.Version check = EmptyString) checks.
Proof.
  intros Hpath.
  assert (Hattrs : forall subrules,
            Forall (fun check =>
                      authv1.Namespace check = ctlres.Namespace res /\
                      authv1.Version check = EmptyString)
              (map (subruleAttrs res) subrules)).
  { intros subrules. induction subrules; constructor; [now split | assumption]. }
  destruct (first_incomplete_subrule (flat_map BreakdownRule rules))
    as [Hall | (pre & bad & post & Hsplit & Hpre & Hbad)].
  - destruct Hpath as (Hverb & Hmap & Hbind & Hdirect & Hrules).
    eexists. exists (map (subruleAttrs res) (flat_map BreakdownRule rules)).
    split; [|apply Hattrs].
    exact (Validate_escalation BreakdownRule bv res t verb mapping Hverb Hmap
             rules Hbind Hdirect Hrules Hall).
  - eexists. exists (map (subruleAttrs res) pre).
    split; [|apply Hattrs].
    exact (Validate_incomplete BreakdownRule bv res verb t mapping rules
             pre bad post Hpath Hsplit Hpre Hbad).
Qed.

Lemma escalation_checks_in_binding_namespace_witness :
  let bv := fake.validator [("create", "rolebindings")] [fake.pod_reader] in
  exists out checks,
    Validate validation.BreakdownRule bv fake.read_pods "create" [] =
      (out, after_resolution fake.rolebindings fake.read_pods "create" []
              ++ map EvValidatePermissions checks) /\
    Forall (fun check =>
              authv1.Namespace check = "default" /\
              authv1.Version check = EmptyString) checks.
Proof.
  apply (escalation_checks_in_binding_namespace validation.BreakdownRule
           (fake.validator [("create", "rolebindings")] [fake.pod_reader])
           fake.rolebindings fake.read_pods "create" [] [fake.pod_reader]).
  unfold escalation_path. repeat split; try reflexivity.
  - left. reflexivity.
  - discriminate.
Defined.

(** X7: for create and update, the error of a failed "bind" check has no
    influence on the run: two validators with the same mapper and the same
    role resolver, whose authorization services agree on every answer
    except the one to the "bind" check, which both refuse, for whatever
    reason each, return the same result after the same calls. *)
Theorem bind_error_is_discarded BreakdownRule bv1 bv2 res verb t :
  verb = "create" \/ verb = "update" ->
  mapper bv1 = mapper bv2 ->
  rbacClient bv1 = rbacClient bv2 ->
  (forall t' attrs,
     length t' <> S (length t) ->
     ssarClient bv1 t' attrs = ssarClient bv2 t' attrs) ->
  (forall mapping,
     mapping_answer bv1 res t = inl mapping ->
     bind_answer bv1 mapping res t <> None /\
     bind_answer bv2 mapping res t <> None) ->
  Validate BreakdownRule bv1 res verb t = Validate BreakdownRule bv2 res verb t.
Proof.
  intros Hverb Hmapper Hrbac Hssar Hrefused.
  assert (Hmap : mapping_answer bv1 res t = mapping_answer bv2 res t)
    by (unfold mapping_answer; now rewrite Hmapper).
  destruct (mapping_answer bv1 res t) as [mapping|err] eqn:Hmap1;
    symmetry in Hmap.
  2:{ now rewrite (Validate_unmapped BreakdownRule bv1 res t verb err Hmap1),
                  (Validate_unmapped BreakdownRule bv2 res t verb err Hmap). }
  destruct (Hrefused mapping eq_refl) as [Hbind1 Hbind2].
  assert (Hdirect : direct_answer bv1 mapping res verb t =
                    direct_answer bv2 mapping res verb t).
  { unfold direct_answer. apply Hssar.
    unfold after_bind_check, after_mapping. rewrite !length_app. cbn. lia. }
  destruct (direct_answer bv1 mapping res verb t) as [e|] eqn:Hdirect1;
    symmetry in Hdirect.
  { now rewrite (Validate_direct_refused BreakdownRule bv1 res t verb mapping
                   Hverb Hmap1 e Hbind1 Hdirect1),
                (Validate_direct_refused BreakdownRule bv2 res t verb mapping
                   Hverb Hmap e Hbind2 Hdirect). }
  assert (Hrules : resolution_answer bv1 mapping res verb t =
                   resolution_answer bv2 mapping res verb t)
    by (unfold resolution_answer; now rewrite Hrbac).
  destruct (resolution_answer bv1 mapping res verb t) as [rules|err] eqn:Hrules1;
    symmetry in Hrules.
  2:{ now rewrite (Validate_unresolved BreakdownRule bv1 res t verb mapping
                     Hverb Hmap1 err Hbind1 Hdirect1 Hrules1),
                  (Validate_unresolved BreakdownRule bv2 res t verb mapping
                     Hverb Hmap err Hbind2 Hdirect Hrules). }
  destruct (first_incomplete_subrule (flat_map BreakdownRule rules))
    as [Hall | (pre & bad & post & Hsplit & Hpre & Hbad)].
  - rewrite (Validate_escalation BreakdownRule bv1 res t verb mapping
               Hverb Hmap1 rules Hbind1 Hdirect1 Hrules1 Hall),
            (Validate_escalation BreakdownRule bv2 res t verb mapping
               Hverb Hmap rules Hbind2 Hdirect Hrules Hall).
    rewrite (answers_ext bv1 bv2); [reflexivity|].
    intros t' attrs Hlen. apply Hssar.
    unfold after_resolution, after_direct_check, after_bind_check, after_mapping
      in Hlen.
    rewrite !length_app in Hlen. cbn in Hlen. lia.
  - rewrite (Validate_incomplete BreakdownRule bv1 res verb t mapping rules
               pre bad post), (Validate_incomplete BreakdownRule bv2 res verb t
               mapping rules pre bad post); trivial;
      unfold escalation_path; repeat split; assumption.
Qed.

Lemma bind_error_is_discarded_witness :
  Validate validation.BreakdownRule
    (NewBindingValidator ssar_unreachable_once (fake.rbac [fake.pod_reader])
       fake.mapper) fake.read_pods "update" [] =
  Validate validation.BreakdownRule
    (NewBindingValidator ssar_denied_once (fake.rbac [fake.pod_reader])
       fake.mapper) fake.read_pods "update" [].
Proof.
  apply (bind_error_is_discarded validation.BreakdownRule
           (NewBindingValidator ssar_unreachable_once
              (fake.rbac [fake.pod_reader]) fake.mapper)
           (NewBindingValidator ssar_denied_once
              (fake.rbac [fake.pod_reader]) fake.mapper)
           fake.read_pods "update" []).
  - right. reflexivity.
  - reflexivity.
  - reflexivity.
  - intros t' attrs Hlen. cbn in *.
    unfold ssar_unreachable_once, ssar_denied_once.
    destruct (Nat.eqb_spec (length t') 1) as [Hone | _];
      [contradiction | reflexivity].
  - intros mapping _. split; discriminate.
Defined.

(** ** The "exists" apply strategy *)

Section ExistsStrategy.

Variable ExistsOpts : Type.
Variable zeroOpts : ExistsOpts.
Variable LookupError : Type.

(** X8: [Apply] succeeds exactly when the lookup reports that the resource
    exists; an error reported along with "exists" is dropped. *)
Theorem Apply_succeeds_iff_exists
    (e : clusterapply.ExistsStrategy ExistsOpts LookupError) :
  clusterapply.Apply zeroOpts e = None <-> clusterapply.found zeroOpts e = true.
Proof.
  unfold clusterapply.Apply, clusterapply.found.
  destruct (clusterapply.Exists _ _ _) as [[resource [|]] [err|]]; cbn;
    split; intros H; try reflexivity; discriminate.
Qed.

(** X9: [Apply] returns the error of the package, whose message is
    "External resource doesn't exists", exactly when the lookup completes
    without error and finds nothing; it returns the error of the lookup,
    unchanged, exactly when the lookup fails and reports nothing found. *)
Theorem Apply_error_cases
    (e : clusterapply.ExistsStrategy ExistsOpts LookupError) :
  (forall missing,
     clusterapply.Apply zeroOpts e = Some (clusterapply.existsChangeError missing) <->
     clusterapply.found zeroOpts e = false /\
     clusterapply.lookup_failure zeroOpts e = None) /\
  (forall err,
     clusterapply.Apply zeroOpts e = Some (clusterapply.lookupError err) <->
     clusterapply.found zeroOpts e = false /\
     clusterapply.lookup_failure zeroOpts e = Some err) /\
  (forall missing,
     clusterapply.Error missing = "External resource doesn't exists").
Proof.
  split; [|split].
  - intros [].
    unfold clusterapply.Apply, clusterapply.found, clusterapply.lookup_failure.
    destruct (clusterapply.Exists _ _ _) as [[resource [|]] [err0|]]; cbn;
      (split; [intros H | intros [H1 H2]]);
      try discriminate; try (split; congruence); congruence.
  - intros err.
    unfold clusterapply.Apply, clusterapply.found, clusterapply.lookup_failure.
    destruct (clusterapply.Exists _ _ _) as [[resource [|]] [err0|]]; cbn;
      (split; [intros H | intros [H1 H2]]);
      try discriminate; try (split; congruence); congruence.
  - intros []. reflexivity.
Qed.

(** X10: [ApplyStrategy] never fails, the strategy it builds has the empty
    operation, and applying that strategy succeeds exactly when the lookup
    of the change's new resource, with the default options, among the
    identified resources of the change, reports that it exists. *)
Theorem ApplyStrategy_then_Apply
    (c : clusterapply.ExistsChange ExistsOpts LookupError) :
  snd (clusterapply.ApplyStrategy c) = None /\
  clusterapply.Op (fst (clusterapply.ApplyStrategy c)) = EmptyString /\
  (clusterapply.Apply zeroOpts (fst (clusterapply.ApplyStrategy c)) = None <->
   snd (fst (clusterapply.Exists (clusterapply.identifiedResources c)
               (clusterapply.NewResource (clusterapply.change c)) zeroOpts))
   = true).
Proof.
  split; [reflexivity | split; [reflexivity|]].
  unfold clusterapply.Apply, clusterapply.ApplyStrategy. cbn.
  destruct (clusterapply.Exists _ _ _) as [[resource [|]] [err|]]; cbn;
    split; intros H; try reflexivity; discriminate.
Qed.

End ExistsStrategy.
